(** * langchain-lab: the configuration and client resolver

    A shallow embedding of [src/config/settings.py]: the [Settings] class,
    [validate_api_keys], [setup_logging], [get_llm], [print_config_status],
    [test_llm_connection] and the module's import-time initialisation; of
    the example functions and [main] of [src/basics/01_simple_llm.py]; and
    of [main] of [src/basics/02_prompt_templates.py].  The properties of
    the resolver that the specification states come first, further
    properties of the module and of the scripts after them.

    Conventions of the embedding.
    - A Python [str] is a [string] (a sequence of bytes).  Environment
      values and provider tokens are ASCII text in practice; [lower] and
      [upper] are the ASCII case maps, which is what [str.lower] and
      [str.upper] do on such text.  No character outside ASCII lower-cases
      to one of the letters of "openai", "anthropic", "auto" or "true", so
      the comparisons made after [lower] agree with Python on every input.
      [upper] is exact on ASCII text only (Python upper-cases a few other
      letters, such as the dotless i, to ASCII ones); whenever [upper s] is
      a level name of [logging] here, [s] is ASCII and Python agrees.
    - [Optional[str]] is [option string]; [bool(x)] is [truthy x].
    - A raised exception is the left injection of a sum, [exn + A]; only
      subclasses of [Exception] are represented.
    - A [dict] with string keys is a [gmap string _].
    - [print] appends a line to the standard output, which is threaded
      through the [io] monad. *)

From Stdlib Require Import ZArith QArith Ascii String.
From stdpp Require Import base option strings gmap pretty.

Open Scope string_scope.

(** ** Python runtime fragments *)

(** Exceptions.  [LibraryError cls msg] is any other [Exception] raised by
    an external package, with its class name and its [str()]. *)
Inductive exn : Type :=
  | ValueError (msg : string)
  | TypeError (msg : string)
  | AttributeError (msg : string)
  | LibraryError (cls msg : string).

(** [str(e)] *)
Definition str_exn (e : exn) : string :=
  match e with
  | ValueError msg | TypeError msg | AttributeError msg => msg
  | LibraryError _ msg => msg
  end.

#[global] Instance exn_ret : MRet (sum exn) := λ A a, inr a.
#[global] Instance exn_bind : MBind (sum exn) :=
  λ A B f m, match m with inl e => inl e | inr a => f a end.

(** [bool(x)] for [x : Optional[str]]: [None] and [""] are falsy. *)
Definition truthy (x : option string) : bool :=
  match x with
  | None => false
  | Some s => negb (String.eqb s "")
  end.

(** [model or dflt] for [model : Optional[str]]. *)
Definition py_or (model : option string) (dflt : string) : string :=
  match model with
  | Some m => if String.eqb m "" then dflt else m
  | None => dflt
  end.

Definition ascii_lower (c : ascii) : ascii :=
  let n := N_of_ascii c in
  if ((65 <=? n) && (n <=? 90))%N then ascii_of_N (n + 32) else c.

Definition ascii_upper (c : ascii) : ascii :=
  let n := N_of_ascii c in
  if ((97 <=? n) && (n <=? 122))%N then ascii_of_N (n - 32) else c.

Fixpoint lower (s : string) : string :=
  match s with
  | EmptyString => EmptyString
  | String c r => String (ascii_lower c) (lower r)
  end.

Fixpoint upper (s : string) : string :=
  match s with
  | EmptyString => EmptyString
  | String c r => String (ascii_upper c) (upper r)
  end.

(** [os.getenv(k)] and [os.getenv(k, d)] over the process environment. *)
Definition getenv (env : gmap string string) (k : string) : option string :=
  env !! k.

Definition getenv_default (env : gmap string string) (k d : string) : string :=
  default d (env !! k).

(** [load_dotenv()]: variables of the [.env] file are added to the
    environment; a variable that is already set keeps its value. *)
Definition load_dotenv (dotenv env : gmap string string) : gmap string string :=
  env ∪ dotenv.

(** ** The [Settings] class *)

Record Settings : Type := {
  OPENAI_API_KEY : option string;
  ANTHROPIC_API_KEY : option string;
  LANGCHAIN_API_KEY : option string;
  LANGCHAIN_TRACING_V2 : bool;
  LANGCHAIN_PROJECT : string;
  DEFAULT_OPENAI_MODEL : string;
  DEFAULT_ANTHROPIC_MODEL : string;
  DEBUG : bool;
  LOG_LEVEL : string
}.

(** The class body, evaluated once when the module is imported. *)
Definition Settings_body (env : gmap string string) : Settings :=
  {| OPENAI_API_KEY := getenv env "OPENAI_API_KEY";
     ANTHROPIC_API_KEY := getenv env "ANTHROPIC_API_KEY";
     LANGCHAIN_API_KEY := getenv env "LANGCHAIN_API_KEY";
     LANGCHAIN_TRACING_V2 :=
       String.eqb (lower (getenv_default env "LANGCHAIN_TRACING_V2" "false")) "true";
     LANGCHAIN_PROJECT := getenv_default env "LANGCHAIN_PROJECT" "langchain-lab";
     DEFAULT_OPENAI_MODEL := getenv_default env "DEFAULT_OPENAI_MODEL" "gpt-3.5-turbo";
     DEFAULT_ANTHROPIC_MODEL :=
       getenv_default env "DEFAULT_ANTHROPIC_MODEL" "claude-3-sonnet-20240229";
     DEBUG := String.eqb (lower (getenv_default env "DEBUG" "false")) "true";
     LOG_LEVEL := getenv_default env "LOG_LEVEL" "INFO" |}.

(** The messages of the [ValueError]s the module raises, by raise site. *)
Definition msg_no_provider_key : string :=
  "At least one of OPENAI_API_KEY or ANTHROPIC_API_KEY must be set. " ++
  "Please check your .env file.".

Definition msg_auto_no_key : string :=
  "No API keys found. Please set OPENAI_API_KEY or ANTHROPIC_API_KEY".

Definition msg_openai_key_missing : string :=
  "OPENAI_API_KEY not found in environment variables".

Definition msg_anthropic_key_missing : string :=
  "ANTHROPIC_API_KEY not found in environment variables".

Definition msg_unsupported (provider : string) : string :=
  "Unsupported provider: " ++ provider ++ ". Use 'openai' or 'anthropic'".

(** [Settings.validate_api_keys] *)
Definition validate_api_keys (cls : Settings) : exn + gmap string bool :=
  let status : gmap string bool :=
    {[ "openai" := truthy (OPENAI_API_KEY cls);
       "anthropic" := truthy (ANTHROPIC_API_KEY cls);
       "langsmith" := truthy (LANGCHAIN_API_KEY cls) ]} in
  if negb (truthy (OPENAI_API_KEY cls)) && negb (truthy (ANTHROPIC_API_KEY cls))
  then inl (ValueError msg_no_provider_key)
  else inr status.

(** ** The [logging] module, as far as [setup_logging] reaches it

    [getattr(logging, name)] for an upper-cased [name]: the level constants,
    and the two other attributes of the module whose names have no
    lower-case letter. *)
Inductive logging_attr : Type :=
  | LevelConst (n : Z)
  | BASIC_FORMAT
  | STYLES.

Definition logging_levels : gmap string Z :=
  list_to_map
    [("CRITICAL", 50%Z); ("FATAL", 50%Z); ("ERROR", 40%Z); ("WARNING", 30%Z);
     ("WARN", 30%Z); ("INFO", 20%Z); ("DEBUG", 10%Z); ("NOTSET", 0%Z)].

Definition logging_getattr (name : string) : exn + logging_attr :=
  match logging_levels !! name with
  | Some n => inr (LevelConst n)
  | None =>
      if String.eqb name "BASIC_FORMAT" then inr BASIC_FORMAT
      else if String.eqb name "_STYLES" then inr STYLES
      else inl (AttributeError ("module 'logging' has no attribute '" ++ name ++ "'"))
  end.

(** [logging.basicConfig(level=..., format=...)] on a root logger that has
    no handler yet, which is its state when this module is the first to
    configure logging: the handler is installed and the level checked. *)
Definition basicConfig (level : logging_attr) : exn + unit :=
  match level with
  | LevelConst _ => inr ()
  | BASIC_FORMAT =>
      inl (ValueError "Unknown level: '%(levelname)s:%(name)s:%(message)s'")
  | STYLES =>
      inl (TypeError "Level not an integer or a valid string: {'%': (<class 'logging.PercentStyle'>, '%(levelname)s:%(name)s:%(message)s'), '{': (<class 'logging.StrFormatStyle'>, '{levelname}:{name}:{message}'), '$': (<class 'logging.StringTemplateStyle'>, '${levelname}:${name}:${message}')}")
  end.

(** [Settings.setup_logging] *)
Definition setup_logging (cls : Settings) : exn + unit :=
  level ← logging_getattr (upper (LOG_LEVEL cls));
  basicConfig level.

(** Importing the module: [load_dotenv()], the class body, then
    [Settings.setup_logging()] on the last line.  The import yields the
    class, or the exception that aborted it. *)
Definition import_settings (dotenv env : gmap string string) : exn + Settings :=
  let cls := Settings_body (load_dotenv dotenv env) in
  _ ← setup_logging cls;
  mret cls.

(** ** Standard output and [try]/[except] *)

Definition io (A : Type) : Type := list string → (exn + A) * list string.

#[global] Instance io_ret : MRet io := λ A a out, (inr a, out).
#[global] Instance io_bind : MBind io :=
  λ A B f m out,
    match m out with
    | (inl e, out') => (inl e, out')
    | (inr a, out') => f a out'
    end.

Definition print (line : string) : io unit := λ out, (inr (), (out ++ [line])%list).

Definition lift {A} (r : exn + A) : io A := λ out, (r, out).

(** [try: body except Exception as e: handler(e)] *)
Definition try_except {A} (body : io A) (handler : exn → io A) : io A :=
  λ out,
    match body out with
    | (inl e, out') => handler e out'
    | (inr a, out') => (inr a, out')
    end.

(** ** The resolver, over the external chat-model packages *)

Section Resolver.
(** [V]: the values of the tuning options, which the resolver forwards
    and never inspects.  [client]: a chat-model instance.  [response]:
    what [invoke] returns, with its [content]. *)
Context {V client response : Type}.

(** A chat-model class: its qualified name and what calling it with
    [api_key=], [model=] and further keyword arguments does. *)
Record chat_class : Type := {
  qualname : string;
  construct : option string → string → gmap string V → exn + client
}.

(** [from langchain_openai import ChatOpenAI] and
    [from langchain_anthropic import ChatAnthropic]: the class, or the
    exception of a failed import. *)
Variable import_ChatOpenAI : exn + chat_class.
Variable import_ChatAnthropic : exn + chat_class.

(** [llm.invoke(prompt)] and [response.content]. *)
Variable invoke : client → string → exn + response.
Variable content : response → string.

(** [C(api_key=k, model=m, **kwargs)]: a keyword given twice is a
    [TypeError] before the class is called. *)
Definition keyword_call (C : chat_class) (api_key : option string)
    (model : string) (kwargs : gmap string V) : exn + client :=
  match kwargs !! "api_key", kwargs !! "model" with
  | Some _, _ =>
      inl (TypeError (qualname C ++ "() got multiple values for keyword argument 'api_key'"))
  | None, Some _ =>
      inl (TypeError (qualname C ++ "() got multiple values for keyword argument 'model'"))
  | None, None => construct C api_key model kwargs
  end.

(** [get_llm(provider, model, **kwargs)]; [cls] is the module's
    [Settings] class. *)
Definition get_llm (cls : Settings) (provider : string)
    (model : option string) (kwargs : gmap string V) : exn + client :=
  _ ← validate_api_keys cls;
  provider ←
    (if String.eqb provider "auto" then
       if truthy (OPENAI_API_KEY cls) then inr "openai"
       else if truthy (ANTHROPIC_API_KEY cls) then inr "anthropic"
       else inl (ValueError msg_auto_no_key)
     else inr provider);
  if String.eqb (lower provider) "openai" then
    if negb (truthy (OPENAI_API_KEY cls)) then
      inl (ValueError msg_openai_key_missing)
    else
      ChatOpenAI ← import_ChatOpenAI;
      let model := py_or model (DEFAULT_OPENAI_MODEL cls) in
      keyword_call ChatOpenAI (OPENAI_API_KEY cls) model kwargs
  else if String.eqb (lower provider) "anthropic" then
    if negb (truthy (ANTHROPIC_API_KEY cls)) then
      inl (ValueError msg_anthropic_key_missing)
    else
      ChatAnthropic ← import_ChatAnthropic;
      let model := py_or model (DEFAULT_ANTHROPIC_MODEL cls) in
      keyword_call ChatAnthropic (ANTHROPIC_API_KEY cls) model kwargs
  else
    inl (ValueError (msg_unsupported provider)).

(** Names for the two client paths of [get_llm] (the bodies of its
    "openai" and "anthropic" branches once the key is known to be there),
    for use in statements. *)
Definition openai_client (cls : Settings) (model : option string)
    (kwargs : gmap string V) : exn + client :=
  C ← import_ChatOpenAI;
  keyword_call C (OPENAI_API_KEY cls) (py_or model (DEFAULT_OPENAI_MODEL cls)) kwargs.

Definition anthropic_client (cls : Settings) (model : option string)
    (kwargs : gmap string V) : exn + client :=
  C ← import_ChatAnthropic;
  keyword_call C (ANTHROPIC_API_KEY cls) (py_or model (DEFAULT_ANTHROPIC_MODEL cls)) kwargs.

Definition hello_prompt : string :=
  "Hello! Please respond with just 'OK' to test the connection.".

(** [test_llm_connection(provider)] *)
Definition test_llm_connection (cls : Settings) (provider : string) : io bool :=
  try_except
    (llm ← lift (get_llm cls provider None ∅);
     response ← lift (invoke llm hello_prompt);
     _ ← print ("✅ " ++ upper provider ++ " connection successful!");
     _ ← print ("Response: " ++ content response);
     mret true)
    (λ e,
     _ ← print ("❌ " ++ upper provider ++ " connection failed: " ++ str_exn e);
     mret false).

End Resolver.

Arguments chat_class : clear implicits.

(** ** A concrete stand-in for the external packages

    Used to run the resolver on concrete inputs: a client is the record of
    the constructor call that built it, option values are rationals, and a
    response is its text. *)

Record built_client : Type := {
  built_by : string;
  built_api_key : option string;
  built_model : string;
  built_kwargs : gmap string Q
}.

Definition recording_class (name : string) : chat_class Q built_client :=
  {| qualname := name;
     construct := λ k m kw,
       inr {| built_by := name; built_api_key := k;
              built_model := m; built_kwargs := kw |} |}.

Definition ChatOpenAI_stub : exn + chat_class Q built_client :=
  inr (recording_class "langchain_openai.chat_models.base.ChatOpenAI").

Definition ChatAnthropic_stub : exn + chat_class Q built_client :=
  inr (recording_class "langchain_anthropic.chat_models.ChatAnthropic").

(** A provider that answers, and one that is unreachable. *)
Definition invoke_ok (llm : built_client) (prompt : string) : exn + string :=
  inr "OK".

Definition invoke_down (llm : built_client) (prompt : string) : exn + string :=
  inl (LibraryError "APIConnectionError" "Connection error.").

(** Sample environments and the snapshots they give. *)
Definition env_none : gmap string string := ∅.
Definition env_openai : gmap string string := {[ "OPENAI_API_KEY" := "sk-x" ]}.
Definition env_anthropic : gmap string string := {[ "ANTHROPIC_API_KEY" := "sk-ant-y" ]}.
Definition env_both : gmap string string :=
  {[ "OPENAI_API_KEY" := "sk-x"; "ANTHROPIC_API_KEY" := "sk-ant-y" ]}.
Definition env_verbose : gmap string string :=
  {[ "OPENAI_API_KEY" := "sk-x"; "LOG_LEVEL" := "verbose" ]}.

Definition cls_none : Settings := Settings_body env_none.
Definition cls_openai : Settings := Settings_body env_openai.
Definition cls_anthropic : Settings := Settings_body env_anthropic.
Definition cls_both : Settings := Settings_body env_both.

Definition get_llm_stub := get_llm ChatOpenAI_stub ChatAnthropic_stub.

(** The options of the tutorial scripts: [temperature=0.7]. *)
Definition temperature_07 : gmap string Q := {[ "temperature" := (7 # 10)%Q ]}.

(** Text all of whose characters are ASCII, on which [lower] and [upper]
    are exactly [str.lower] and [str.upper]. *)
Fixpoint is_ascii (s : string) : bool :=
  match s with
  | EmptyString => true
  | String c r => (N_of_ascii c <? 128)%N && is_ascii r
  end.

(** ** [print_config_status] *)

(** [s * n] for a [str] [s]. *)
Fixpoint str_mul (s : string) (n : nat) : string :=
  match n with
  | O => ""
  | S n' => s ++ str_mul s n'
  end.

(** A [KeyError] for a string key, by its class name and its [str()]. *)
Definition KeyError (k : string) : exn := LibraryError "KeyError" ("'" ++ k ++ "'").

(** [d[k]] *)
Definition subscript (d : gmap string bool) (k : string) : exn + bool :=
  match d !! k with
  | Some b => inr b
  | None => inl (KeyError k)
  end.

(** [if b: body] *)
Definition when (b : bool) (body : io unit) : io unit :=
  if b then body else mret ().

(** [print_config_status()]; [cls] is the module's [Settings] class. *)
Definition print_config_status (cls : Settings) : io unit :=
  _ ← print "🔧 Configuration Status";
  _ ← print (str_mul "=" 40);
  status ← lift (validate_api_keys cls);
  openai ← lift (subscript status "openai");
  _ ← print ("OpenAI API Key: " ++ (if (openai : bool) then "✅ Set" else "❌ Missing"));
  anthropic ← lift (subscript status "anthropic");
  _ ← print ("Anthropic API Key: " ++ (if (anthropic : bool) then "✅ Set" else "❌ Missing"));
  langsmith ← lift (subscript status "langsmith");
  _ ← print ("LangSmith API Key: " ++
             (if (langsmith : bool) then "✅ Set" else "❌ Missing (Optional)"));
  _ ← print ("LangSmith Tracing: " ++
             (if LANGCHAIN_TRACING_V2 cls then "✅ Enabled" else "❌ Disabled"));
  _ ← print ("Project Name: " ++ LANGCHAIN_PROJECT cls);
  _ ← print ("Debug Mode: " ++ (if DEBUG cls then "✅ On" else "❌ Off"));
  _ ← print ("Log Level: " ++ LOG_LEVEL cls);
  _ ← print "";
  openai ← lift (subscript status "openai");
  _ ← when openai (print ("🤖 Default OpenAI Model: " ++ DEFAULT_OPENAI_MODEL cls));
  anthropic ← lift (subscript status "anthropic");
  when anthropic (print ("🧠 Default Anthropic Model: " ++ DEFAULT_ANTHROPIC_MODEL cls)).

(** ** Lesson 1: [src/basics/01_simple_llm.py] *)

(** The line feed, for the texts that start or end with one. *)
Definition nl : string := String "010"%char "".

(** [s[:n]]; like [len] ([String.length]) it counts the elements of the
    [string], which are the characters of an ASCII text. *)
Fixpoint take_str (n : nat) (s : string) : string :=
  match n, s with
  | S n', String c r => String c (take_str n' r)
  | _, _ => ""
  end.

(** [str(b)] for a [bool]. *)
Definition str_bool (b : bool) : string := if b then "True" else "False".

(** The values the scripts give to tuning options: a [float], by its
    [repr] (which is also what an f-string prints), or an [int]. *)
Inductive pyval : Type :=
  | PyFloat (repr : string)
  | PyInt (n : Z).

(** [for x in items: body(x)] *)
Fixpoint for_each {A} (items : list A) (body : A → io unit) : io unit :=
  match items with
  | [] => mret ()
  | x :: rest => _ ← body x; for_each rest body
  end.

(** [enumerate(items, start)] *)
Fixpoint enumerate {A} (start : nat) (items : list A) : list (nat * A) :=
  match items with
  | [] => []
  | x :: rest => (start, x) :: enumerate (S start) rest
  end.

(** An action that returns normally from every output state. *)
Definition returns {A} (m : io A) : Prop :=
  ∀ out, ∃ a out', m out = (inr a, out').

Section Lesson1.
(** The external packages as in the resolver, with [str(type(response))]
    and [hasattr(response, 'response_metadata')]. *)
Context {client response : Type}.
Variable import_ChatOpenAI import_ChatAnthropic : exn + chat_class pyval client.
Variable invoke : client → string → exn + response.
Variable content : response → string.
Variable type_repr : response → string.
Variable has_response_metadata : response → bool.

(** [streaming_response()] writes its chunks with [print(..., end="")],
    which the line-based output does not represent: it is taken as an
    arbitrary action on the output. *)
Variable streaming_response : io unit.

(** The module's [Settings] class. *)
Variable cls : Settings.

Local Abbreviation get_llm' := (get_llm import_ChatOpenAI import_ChatAnthropic cls).

(** [simple_llm_call()] *)
Definition simple_llm_call : io unit :=
  _ ← print "🚀 Example 1: Simple LLM Call";
  _ ← print (str_mul "-" 40);
  try_except
    (llm ← lift (get_llm' "auto" None {[ "temperature" := PyFloat "0.7" ]});
     response ← lift (invoke llm
       "Hello! Please introduce yourself and tell me what you can help with.");
     _ ← print ("Response: " ++ content response);
     _ ← print ("Response Type: " ++ type_repr response);
     print ("Has additional info: " ++ str_bool (has_response_metadata response)))
    (λ e,
     _ ← print ("❌ Error: " ++ str_exn e);
     print "💡 Make sure you have set up your .env file with API keys").

Definition compare_question : string :=
  "What are the key benefits of using LangChain for AI development?".

(** [compare_providers()] *)
Definition compare_providers : io unit :=
  _ ← print (nl ++ "🔄 Example 2: Comparing LLM Providers");
  _ ← print (str_mul "-" 40);
  for_each ["openai"; "anthropic"] (λ provider,
    try_except
      (_ ← print (nl ++ "🤖 " ++ upper provider ++ " Response:");
       llm ← lift (get_llm' provider None {[ "temperature" := PyFloat "0.3" ]});
       response ← lift (invoke llm compare_question);
       print (if (200 <? String.length (content response))%nat
              then take_str 200 (content response) ++ "..."
              else content response))
      (λ e, print ("❌ " ++ upper provider ++ " failed: " ++ str_exn e))).

Definition parameters_prompt : string :=
  "Write a creative story in exactly one sentence about a robot learning to paint.".

(** [demonstrate_parameters()]; the temperatures are the floats [0.0],
    [0.5] and [1.0]. *)
Definition demonstrate_parameters : io unit :=
  _ ← print (nl ++ "⚙️ Example 3: LLM Parameters");
  _ ← print (str_mul "-" 40);
  for_each ["0.0"; "0.5"; "1.0"] (λ temp,
    try_except
      (_ ← print (nl ++ "🌡️ Temperature " ++ temp ++ ":");
       llm ← lift (get_llm' "auto" None
                     {[ "temperature" := PyFloat temp; "max_tokens" := PyInt 100 ]});
       response ← lift (invoke llm parameters_prompt);
       print (content response))
      (λ e, print ("❌ Error with temperature " ++ temp ++ ": " ++ str_exn e))).

Definition batch_questions : list string :=
  ["What is machine learning?";
   "Explain neural networks in simple terms.";
   "What are the benefits of prompt engineering?"].

(** [batch_processing()] *)
Definition batch_processing : io unit :=
  _ ← print (nl ++ "📦 Example 4: Batch Processing");
  _ ← print (str_mul "-" 40);
  try_except
    (llm ← lift (get_llm' "auto" None {[ "temperature" := PyFloat "0.2" ]});
     _ ← print "Processing questions individually:";
     for_each (enumerate 1 batch_questions) (λ '(i, question),
       response ← lift (invoke llm question);
       _ ← print ("Q" ++ pretty i ++ ": " ++ question);
       print ("A" ++ pretty i ++ ": " ++ take_str 100 (content response) ++ "..." ++ nl)))
    (λ e, print ("❌ Batch processing error: " ++ str_exn e)).

(** [main()] of lesson 1 *)
Definition main : io unit :=
  _ ← print "🔬 LangChain Lab - Lesson 1: Simple LLM Usage";
  _ ← print (str_mul "=" 50);
  _ ← print_config_status cls;
  _ ← print "🔌 Testing LLM Connection...";
  ok ← test_llm_connection import_ChatOpenAI import_ChatAnthropic invoke content cls "auto";
  if negb ok then
    _ ← print "❌ Cannot proceed without a working LLM connection.";
    print "💡 Please check your .env file and API keys."
  else
    _ ← simple_llm_call;
    _ ← compare_providers;
    _ ← demonstrate_parameters;
    _ ← batch_processing;
    _ ← streaming_response;
    _ ← print (nl ++ "🎉 Lesson 1 Complete!");
    print "💡 Next: Run 'python src/basics/02_prompt_templates.py' to learn about prompt engineering".

End Lesson1.

(** A stand-in for the packages over [pyval] options, with responses that
    are their text. *)
Definition recording_class_py (name : string) : chat_class pyval (string * string) :=
  {| qualname := name;
     construct := λ k m kw, inr (name, m) |}.

Definition ChatOpenAI_py : exn + chat_class pyval (string * string) :=
  inr (recording_class_py "ChatOpenAI").

Definition ChatAnthropic_py : exn + chat_class pyval (string * string) :=
  inr (recording_class_py "ChatAnthropic").

(** A provider that echoes the prompt, one that is unreachable, and one
    that answers everything but the second batch question. *)
Definition invoke_echo (llm : string * string) (prompt : string) : exn + string :=
  inr prompt.

Definition invoke_unreachable (llm : string * string) (prompt : string) : exn + string :=
  inl (LibraryError "APIConnectionError" "Connection error.").


(** An environment whose default OpenAI model is set to the empty string. *)
Definition env_empty_model : gmap string string :=
  {[ "OPENAI_API_KEY" := "sk-x"; "ANTHROPIC_API_KEY" := "sk-ant-y";
     "DEFAULT_OPENAI_MODEL" := "" ]}.

(** [str(type(r))] and [hasattr(r, 'response_metadata')] of a response
    that is a plain text. *)
Definition str_type (r : string) : string := "<class 'str'>".
Definition no_metadata (r : string) : bool := false.

(** ** Lesson 2: [src/basics/02_prompt_templates.py]

    The five example functions build and format their prompts with the
    classes of an external prompt package; [main] is modelled over them as
    arbitrary actions. *)
Module Lesson2.
Section Main.
Variable basic_prompt_template chat_prompt_template few_shot_prompting : io unit.
Variable conditional_prompting dynamic_prompt_building : io unit.
Variable cls : Settings.

(** [main()] of lesson 2 *)
Definition main : io unit :=
  _ ← print "🔬 LangChain Lab - Lesson 2: Prompt Templates";
  _ ← print (str_mul "=" 50);
  _ ← print_config_status cls;
  _ ← basic_prompt_template;
  _ ← chat_prompt_template;
  _ ← few_shot_prompting;
  _ ← conditional_prompting;
  _ ← dynamic_prompt_building;
  _ ← print (nl ++ "🎉 Lesson 2 Complete!");
  _ ← print "💡 Key Takeaways:";
  _ ← print "   • Prompt templates make prompts reusable and maintainable";
  _ ← print "   • Variable substitution allows dynamic content";
  _ ← print "   • Few-shot examples guide LLM response format";
  _ ← print "   • Chat templates structure conversations";
  _ ← print "   • Conditional prompts adapt to different contexts";
  print (nl ++ "📚 Next: Run 'python src/basics/03_chains.py' to learn about chaining operations").

End Main.
End Lesson2.

(** * Properties *)

(** ** Helper facts on the runtime fragments *)

Lemma truthy_Some_nonempty (s : string) : s ≠ "" → truthy (Some s) = true.
Proof.
  intros Hs. unfold truthy.
  destruct (String.eqb_spec s ""); [contradiction | reflexivity].
Qed.

Lemma py_or_None (d : string) : py_or None d = d.
Proof. reflexivity. Qed.

Lemma py_or_empty (d : string) : py_or (Some "") d = d.
Proof. reflexivity. Qed.

Lemma py_or_nonempty (m d : string) : m ≠ "" → py_or (Some m) d = m.
Proof.
  intros Hm. unfold py_or.
  destruct (String.eqb_spec m ""); [contradiction | reflexivity].
Qed.

Lemma eqb_auto_of_lower (p target : string) :
  lower p = target → target ≠ "auto" → String.eqb p "auto" = false.
Proof.
  intros Hl Hne. destruct (String.eqb_spec p "auto") as [-> | ]; [| reflexivity].
  exfalso. apply Hne. rewrite <- Hl. reflexivity.
Qed.

Lemma eqb_false_of_ne (a b : string) : a ≠ b → String.eqb a b = false.
Proof. intros H. destruct (String.eqb_spec a b); [contradiction | reflexivity]. Qed.

(** ** [validate_api_keys] *)

Lemma validate_api_keys_ok (cls : Settings) :
  truthy (OPENAI_API_KEY cls) || truthy (ANTHROPIC_API_KEY cls) = true →
  validate_api_keys cls =
    inr {[ "openai" := truthy (OPENAI_API_KEY cls);
           "anthropic" := truthy (ANTHROPIC_API_KEY cls);
           "langsmith" := truthy (LANGCHAIN_API_KEY cls) ]}.
Proof.
  intros H. unfold validate_api_keys.
  destruct (truthy (OPENAI_API_KEY cls)), (truthy (ANTHROPIC_API_KEY cls));
    simpl in *; congruence.
Qed.

Lemma validate_api_keys_none (cls : Settings) :
  truthy (OPENAI_API_KEY cls) = false →
  truthy (ANTHROPIC_API_KEY cls) = false →
  validate_api_keys cls = inl (ValueError msg_no_provider_key).
Proof. intros HO HA. unfold validate_api_keys. rewrite HO, HA. reflexivity. Qed.

(** C3: [validate_api_keys] raises exactly when both provider keys are
    absent (unset or empty), the exception it raises is then the
    missing-credentials [ValueError], and with a provider key present it
    returns whether or not the tracing key is there. *)
Theorem validate_api_keys_fails_iff (cls : Settings) :
  ((∃ e, validate_api_keys cls = inl e) ↔
     truthy (OPENAI_API_KEY cls) = false ∧ truthy (ANTHROPIC_API_KEY cls) = false)
  ∧ (∀ e, validate_api_keys cls = inl e → e = ValueError msg_no_provider_key)
  ∧ (truthy (OPENAI_API_KEY cls) || truthy (ANTHROPIC_API_KEY cls) = true →
     ∀ cls', OPENAI_API_KEY cls' = OPENAI_API_KEY cls →
             ANTHROPIC_API_KEY cls' = ANTHROPIC_API_KEY cls →
             ∃ status, validate_api_keys cls' = inr status).
Proof.
  split; [| split].
  - split.
    + intros [e He]. unfold validate_api_keys in He.
      destruct (truthy (OPENAI_API_KEY cls)), (truthy (ANTHROPIC_API_KEY cls));
        simpl in He; try discriminate; auto.
    + intros [HO HA]. eexists. by apply validate_api_keys_none.
  - intros e He. unfold validate_api_keys in He.
    destruct (negb _ && negb _); congruence.
  - intros H cls' HO HA. eexists. apply validate_api_keys_ok. by rewrite HO, HA.
Qed.

(** The claim that the status record is keyed by "openai", "anthropic" and
    "tracing" fails: with only the OpenAI key set the record has no entry
    "tracing"; its third key is "langsmith". *)
Lemma validate_api_keys_no_tracing_key :
  ∃ status, validate_api_keys cls_openai = inr status
    ∧ status !! "tracing" = None
    ∧ status !! "langsmith" = Some false
    ∧ dom status ≠ ({[ "openai"; "anthropic"; "tracing" ]} : gset string).
Proof.
  eexists. split; [reflexivity |]. split; [reflexivity |]. split; [reflexivity |].
  intros Heq.
  assert (Hin : "tracing" ∈ ({[ "openai"; "anthropic"; "tracing" ]} : gset string))
    by set_solver.
  rewrite <- Heq in Hin. apply elem_of_dom in Hin. destruct Hin as [b Hb].
  vm_compute in Hb. discriminate.
Qed.

(** C5 (amended): with a provider key present, [validate_api_keys] returns
    a record whose keys are exactly "openai", "anthropic" and "langsmith",
    each mapped to the presence of the corresponding key. *)
Theorem validate_api_keys_status (cls : Settings) :
  truthy (OPENAI_API_KEY cls) || truthy (ANTHROPIC_API_KEY cls) = true →
  ∃ status, validate_api_keys cls = inr status
    ∧ dom status = ({[ "openai"; "anthropic"; "langsmith" ]} : gset string)
    ∧ status !! "openai" = Some (truthy (OPENAI_API_KEY cls))
    ∧ status !! "anthropic" = Some (truthy (ANTHROPIC_API_KEY cls))
    ∧ status !! "langsmith" = Some (truthy (LANGCHAIN_API_KEY cls)).
Proof.
  intros H. eexists. split; [by apply validate_api_keys_ok |].
  split; [| by repeat split].
  rewrite !dom_insert_L, dom_singleton_L. set_solver.
Qed.

Lemma validate_api_keys_status_witness :
  truthy (OPENAI_API_KEY cls_both) || truthy (ANTHROPIC_API_KEY cls_both) = true
  ∧ ∃ status, validate_api_keys cls_both = inr status
    ∧ dom status = ({[ "openai"; "anthropic"; "langsmith" ]} : gset string)
    ∧ status !! "openai" = Some true
    ∧ status !! "anthropic" = Some true
    ∧ status !! "langsmith" = Some false.
Proof.
  split; [reflexivity |].
  apply (validate_api_keys_status cls_both). reflexivity.
Defined.

(** ** [get_llm] *)

Section ResolverFacts.
Context {V client response : Type}.
Variable import_ChatOpenAI import_ChatAnthropic : exn + chat_class V client.
Variable invoke : client → string → exn + response.
Variable content : response → string.

Local Abbreviation get_llm' := (get_llm import_ChatOpenAI import_ChatAnthropic).
Local Abbreviation openai_client' := (openai_client import_ChatOpenAI).
Local Abbreviation anthropic_client' := (anthropic_client import_ChatAnthropic).
Local Abbreviation test_llm_connection' :=
  (test_llm_connection import_ChatOpenAI import_ChatAnthropic invoke content).

Lemma get_llm_openai cls model kwargs :
  get_llm' cls "openai" model kwargs =
    if truthy (OPENAI_API_KEY cls) then openai_client' cls model kwargs
    else inl (ValueError (if truthy (ANTHROPIC_API_KEY cls)
                          then msg_openai_key_missing else msg_no_provider_key)).
Proof.
  unfold get_llm, validate_api_keys, openai_client.
  destruct (truthy (OPENAI_API_KEY cls)), (truthy (ANTHROPIC_API_KEY cls));
    reflexivity.
Qed.

Lemma get_llm_anthropic cls model kwargs :
  get_llm' cls "anthropic" model kwargs =
    if truthy (ANTHROPIC_API_KEY cls) then anthropic_client' cls model kwargs
    else inl (ValueError (if truthy (OPENAI_API_KEY cls)
                          then msg_anthropic_key_missing else msg_no_provider_key)).
Proof.
  unfold get_llm, validate_api_keys, anthropic_client.
  destruct (truthy (OPENAI_API_KEY cls)), (truthy (ANTHROPIC_API_KEY cls));
    reflexivity.
Qed.

(** A token that lower-cases to a provider name takes the branch of that
    name, and one that is not "auto" is compared as it stands. *)
Lemma get_llm_lower cls provider model kwargs (name : string) :
  lower provider = lower name → String.eqb provider "auto" = false →
  String.eqb name "auto" = false →
  String.eqb (lower name) "openai" || String.eqb (lower name) "anthropic" = true →
  get_llm' cls provider model kwargs = get_llm' cls name model kwargs.
Proof.
  intros Hl Hp Hn Hb. unfold get_llm.
  destruct (validate_api_keys cls) as [e | st]; [reflexivity |]. simpl.
  rewrite Hp, Hn. simpl. rewrite Hl.
  destruct (String.eqb (lower name) "openai"); [reflexivity |].
  destruct (String.eqb (lower name) "anthropic"); [reflexivity | discriminate].
Qed.

Lemma get_llm_other cls provider model kwargs :
  String.eqb provider "auto" = false →
  String.eqb (lower provider) "openai" = false →
  String.eqb (lower provider) "anthropic" = false →
  get_llm' cls provider model kwargs =
    (_ ← validate_api_keys cls; inl (ValueError (msg_unsupported provider))).
Proof.
  intros Hp HO HA. unfold get_llm.
  destruct (validate_api_keys cls) as [e | st]; [reflexivity |]. simpl.
  rewrite Hp. simpl. rewrite HO, HA. reflexivity.
Qed.

(** C1: [get_llm("auto")] takes the "openai" client path when the OpenAI
    key is present, else the "anthropic" client path when the Anthropic key
    is present, and raises otherwise; so with the OpenAI key present it is
    [get_llm("openai")], and with only the Anthropic key present it is
    [get_llm("anthropic")]. *)
Theorem get_llm_auto cls model kwargs :
  get_llm' cls "auto" model kwargs =
    (if truthy (OPENAI_API_KEY cls) then openai_client' cls model kwargs
     else if truthy (ANTHROPIC_API_KEY cls) then anthropic_client' cls model kwargs
     else inl (ValueError msg_no_provider_key))
  ∧ (truthy (OPENAI_API_KEY cls) = true →
     get_llm' cls "auto" model kwargs = get_llm' cls "openai" model kwargs)
  ∧ (truthy (OPENAI_API_KEY cls) = false → truthy (ANTHROPIC_API_KEY cls) = true →
     get_llm' cls "auto" model kwargs = get_llm' cls "anthropic" model kwargs).
Proof.
  unfold get_llm, validate_api_keys, openai_client, anthropic_client.
  destruct (truthy (OPENAI_API_KEY cls)), (truthy (ANTHROPIC_API_KEY cls));
    simpl; repeat split; intros; try discriminate; reflexivity.
Qed.

(** C2 (amended): a token that is not "auto" and whose lower-case form is
    neither "openai" nor "anthropic" makes [get_llm] raise the
    unsupported-provider [ValueError] when a provider key is present; when
    both keys are absent [validate_api_keys] raises first. *)
Theorem get_llm_unsupported cls provider model kwargs :
  provider ≠ "auto" → lower provider ≠ "openai" → lower provider ≠ "anthropic" →
  get_llm' cls provider model kwargs =
    if truthy (OPENAI_API_KEY cls) || truthy (ANTHROPIC_API_KEY cls)
    then inl (ValueError (msg_unsupported provider))
    else inl (ValueError msg_no_provider_key).
Proof.
  intros Hp HO HA.
  rewrite get_llm_other by (by apply eqb_false_of_ne).
  unfold validate_api_keys.
  destruct (truthy (OPENAI_API_KEY cls)), (truthy (ANTHROPIC_API_KEY cls));
    reflexivity.
Qed.

(** C4: [get_llm("openai")] raises a missing-credentials [ValueError] when
    the OpenAI key is absent and takes the "openai" client path when it is
    present, whatever the rest of the snapshot holds; symmetrically for
    "anthropic". *)
Theorem get_llm_explicit cls model kwargs :
  get_llm' cls "openai" model kwargs =
    (if truthy (OPENAI_API_KEY cls) then openai_client' cls model kwargs
     else inl (ValueError (if truthy (ANTHROPIC_API_KEY cls)
                           then msg_openai_key_missing else msg_no_provider_key)))
  ∧ get_llm' cls "anthropic" model kwargs =
    (if truthy (ANTHROPIC_API_KEY cls) then anthropic_client' cls model kwargs
     else inl (ValueError (if truthy (OPENAI_API_KEY cls)
                           then msg_anthropic_key_missing else msg_no_provider_key)))
  ∧ (∀ cls', truthy (OPENAI_API_KEY cls) = true →
       OPENAI_API_KEY cls' = OPENAI_API_KEY cls →
       DEFAULT_OPENAI_MODEL cls' = DEFAULT_OPENAI_MODEL cls →
       get_llm' cls' "openai" model kwargs = get_llm' cls "openai" model kwargs)
  ∧ (∀ cls', truthy (ANTHROPIC_API_KEY cls) = true →
       ANTHROPIC_API_KEY cls' = ANTHROPIC_API_KEY cls →
       DEFAULT_ANTHROPIC_MODEL cls' = DEFAULT_ANTHROPIC_MODEL cls →
       get_llm' cls' "anthropic" model kwargs = get_llm' cls "anthropic" model kwargs).
Proof.
  split; [apply get_llm_openai |]. split; [apply get_llm_anthropic |]. split.
  - intros cls' Hk Hkey Hmodel. rewrite !get_llm_openai, Hkey, Hk.
    unfold openai_client. by rewrite Hkey, Hmodel.
  - intros cls' Hk Hkey Hmodel. rewrite !get_llm_anthropic, Hkey, Hk.
    unfold anthropic_client. by rewrite Hkey, Hmodel.
Qed.

Lemma keyword_call_fresh (C : chat_class V client) k m (kwargs : gmap string V) :
  kwargs !! "api_key" = None → kwargs !! "model" = None →
  keyword_call C k m kwargs = construct C k m kwargs.
Proof. intros H1 H2. unfold keyword_call. by rewrite H1, H2. Qed.

(** C6 (amended): with the provider's key present, its package importable
    and options that name neither [api_key] nor [model], [get_llm] calls
    the provider's class with the snapshot's default model when no model
    is given and with the given model when it is a non-empty string; the
    key and the options are passed as they are. *)
Theorem get_llm_model_selection cls (kwargs : gmap string V) :
  kwargs !! "api_key" = None → kwargs !! "model" = None →
  (∀ C, import_ChatOpenAI = inr C → truthy (OPENAI_API_KEY cls) = true →
     get_llm' cls "openai" None kwargs =
       construct C (OPENAI_API_KEY cls) (DEFAULT_OPENAI_MODEL cls) kwargs
     ∧ ∀ m, m ≠ "" →
         get_llm' cls "openai" (Some m) kwargs =
           construct C (OPENAI_API_KEY cls) m kwargs)
  ∧ (∀ C, import_ChatAnthropic = inr C → truthy (ANTHROPIC_API_KEY cls) = true →
     get_llm' cls "anthropic" None kwargs =
       construct C (ANTHROPIC_API_KEY cls) (DEFAULT_ANTHROPIC_MODEL cls) kwargs
     ∧ ∀ m, m ≠ "" →
         get_llm' cls "anthropic" (Some m) kwargs =
           construct C (ANTHROPIC_API_KEY cls) m kwargs).
Proof.
  intros Hk Hm. split.
  - intros C HC Hkey. split; [| intros m Hne].
    all: rewrite get_llm_openai, Hkey; unfold openai_client.
    all: rewrite HC, ?py_or_nonempty by done; simpl.
    all: by rewrite keyword_call_fresh.
  - intros C HC Hkey. split; [| intros m Hne].
    all: rewrite get_llm_anthropic, Hkey; unfold anthropic_client.
    all: rewrite HC, ?py_or_nonempty by done; simpl.
    all: by rewrite keyword_call_fresh.
Qed.

(** C7: [test_llm_connection] never raises: from any output state it
    returns a boolean, which is [True] exactly when [get_llm(provider)]
    returned a client and that client's [invoke] returned a response, and
    [False] when either raised. *)
Theorem test_llm_connection_never_raises cls provider out :
  ∃ b out', test_llm_connection' cls provider out = (inr b, out')
    ∧ (b = true ↔
         ∃ llm r, get_llm' cls provider None ∅ = inr llm
                  ∧ invoke llm hello_prompt = inr r).
Proof.
  unfold test_llm_connection, try_except, mbind, io_bind, lift, print, mret, io_ret.
  destruct (get_llm' cls provider None ∅) as [e | llm] eqn:Hget.
  - eexists false, _. split; [reflexivity |].
    split; [discriminate | intros (llm & r & Hl & _); discriminate].
  - destruct (invoke llm hello_prompt) as [e | r] eqn:Hinv.
    + eexists false, _. split; [reflexivity |].
      split; [discriminate |].
      intros (llm' & r & Hl & Hr). injection Hl as <-. congruence.
    + eexists true, _. split; [reflexivity |].
      split; [intros _; by exists llm, r | reflexivity].
Qed.

(** C9: a token that lower-cases to "openai" (or "anthropic") is resolved
    as "openai" (or "anthropic") itself, while a token that lower-cases to
    "auto" without being "auto" is never auto-selected: past the key
    validation it is rejected as an unsupported provider. *)
Theorem get_llm_case_insensitive cls provider model kwargs :
  (lower provider = "openai" →
     get_llm' cls provider model kwargs = get_llm' cls "openai" model kwargs)
  ∧ (lower provider = "anthropic" →
     get_llm' cls provider model kwargs = get_llm' cls "anthropic" model kwargs)
  ∧ (lower provider = "auto" → provider ≠ "auto" →
     get_llm' cls provider model kwargs =
       (_ ← validate_api_keys cls; inl (ValueError (msg_unsupported provider)))).
Proof.
  split; [| split].
  - intros Hl. apply get_llm_lower; try reflexivity.
    + by rewrite Hl.
    + by apply (eqb_auto_of_lower _ "openai").
  - intros Hl. apply get_llm_lower; try reflexivity.
    + by rewrite Hl.
    + by apply (eqb_auto_of_lower _ "anthropic").
  - intros Hl Hne. apply get_llm_other.
    + by apply eqb_false_of_ne.
    + by rewrite Hl.
    + by rewrite Hl.
Qed.

(** C10: an empty-string model is treated as no model: [get_llm] does the
    same with [model=""] as with [model=None], and with the provider's
    key present it calls the provider's class with the snapshot's default
    model. *)
Theorem get_llm_empty_model cls provider kwargs :
  get_llm' cls provider (Some "") kwargs = get_llm' cls provider None kwargs
  ∧ (truthy (OPENAI_API_KEY cls) = true →
     get_llm' cls "openai" (Some "") kwargs =
       (C ← import_ChatOpenAI;
        keyword_call C (OPENAI_API_KEY cls) (DEFAULT_OPENAI_MODEL cls) kwargs))
  ∧ (truthy (ANTHROPIC_API_KEY cls) = true →
     get_llm' cls "anthropic" (Some "") kwargs =
       (C ← import_ChatAnthropic;
        keyword_call C (ANTHROPIC_API_KEY cls) (DEFAULT_ANTHROPIC_MODEL cls) kwargs)).
Proof.
  split; [reflexivity |]. split; intros Hkey.
  - rewrite get_llm_openai, Hkey. reflexivity.
  - rewrite get_llm_anthropic, Hkey. reflexivity.
Qed.

End ResolverFacts.

(** ** The resolver on concrete snapshots *)

Lemma get_llm_auto_witness :
  truthy (OPENAI_API_KEY cls_anthropic) = false
  ∧ truthy (ANTHROPIC_API_KEY cls_anthropic) = true
  ∧ get_llm_stub cls_anthropic "auto" None ∅ =
      get_llm_stub cls_anthropic "anthropic" None ∅.
Proof.
  split; [reflexivity |]. split; [reflexivity |].
  apply (proj2 (proj2
    (get_llm_auto ChatOpenAI_stub ChatAnthropic_stub cls_anthropic None ∅)));
    reflexivity.
Defined.

(** The claim that every token other than "openai", "anthropic" and "auto"
    is rejected as an unsupported provider on every snapshot fails twice:
    without provider keys "carrot" is rejected by [validate_api_keys] with
    the missing-credentials error, and with the OpenAI key the token
    "OPENAI" is accepted. *)
Lemma get_llm_carrot_without_keys :
  get_llm_stub cls_none "carrot" None ∅ = inl (ValueError msg_no_provider_key)
  ∧ get_llm_stub cls_none "carrot" None ∅ ≠ inl (ValueError (msg_unsupported "carrot"))
  ∧ "OPENAI" ≠ "openai" ∧ "OPENAI" ≠ "anthropic" ∧ "OPENAI" ≠ "auto"
  ∧ ∃ llm, get_llm_stub cls_openai "OPENAI" None ∅ = inr llm.
Proof.
  split; [reflexivity |]. split; [discriminate |].
  repeat (split; [discriminate |]). eexists. reflexivity.
Qed.

Lemma get_llm_unsupported_witness :
  "carrot" ≠ "auto" ∧ lower "carrot" ≠ "openai" ∧ lower "carrot" ≠ "anthropic"
  ∧ get_llm_stub cls_openai "carrot" None ∅ =
      inl (ValueError "Unsupported provider: carrot. Use 'openai' or 'anthropic'").
Proof.
  repeat (split; [discriminate |]).
  apply (get_llm_unsupported ChatOpenAI_stub ChatAnthropic_stub cls_openai
           "carrot" None ∅); discriminate.
Defined.

Lemma get_llm_explicit_witness :
  truthy (OPENAI_API_KEY cls_openai) = true
  ∧ OPENAI_API_KEY cls_both = OPENAI_API_KEY cls_openai
  ∧ DEFAULT_OPENAI_MODEL cls_both = DEFAULT_OPENAI_MODEL cls_openai
  ∧ get_llm_stub cls_both "openai" None ∅ = get_llm_stub cls_openai "openai" None ∅.
Proof.
  repeat (split; [reflexivity |]).
  apply (proj1 (proj2 (proj2
    (get_llm_explicit ChatOpenAI_stub ChatAnthropic_stub cls_openai None ∅))));
    reflexivity.
Defined.

(** The claim that a given model override is the model of the client, and
    that the options reach the constructor as they are, fails at the empty
    override, which is replaced by the default model, and at an option
    named [api_key], which stops the call with a [TypeError]. *)
Lemma get_llm_empty_override_not_used :
  (∃ llm, get_llm_stub cls_openai "openai" (Some "") ∅ = inr llm
     ∧ built_model llm = "gpt-3.5-turbo" ∧ built_model llm ≠ "")
  ∧ get_llm_stub cls_openai "openai" None {[ "api_key" := 1%Q ]} =
      inl (TypeError "langchain_openai.chat_models.base.ChatOpenAI() got multiple values for keyword argument 'api_key'").
Proof.
  split; [| reflexivity].
  eexists. split; [reflexivity |]. split; [reflexivity | discriminate].
Qed.

Lemma get_llm_model_selection_witness :
  temperature_07 !! "api_key" = None ∧ temperature_07 !! "model" = None
  ∧ truthy (OPENAI_API_KEY cls_openai) = true
  ∧ get_llm_stub cls_openai "openai" None temperature_07 =
      inr {| built_by := "langchain_openai.chat_models.base.ChatOpenAI";
             built_api_key := Some "sk-x";
             built_model := "gpt-3.5-turbo";
             built_kwargs := temperature_07 |}
  ∧ get_llm_stub cls_openai "openai" (Some "gpt-4") temperature_07 =
      inr {| built_by := "langchain_openai.chat_models.base.ChatOpenAI";
             built_api_key := Some "sk-x";
             built_model := "gpt-4";
             built_kwargs := temperature_07 |}.
Proof.
  do 3 (split; [reflexivity |]).
  destruct (proj1 (get_llm_model_selection ChatOpenAI_stub ChatAnthropic_stub
                     cls_openai temperature_07 eq_refl eq_refl)
              _ eq_refl eq_refl) as [Hdefault Hgiven].
  split; [exact Hdefault | apply Hgiven; discriminate].
Defined.

Lemma get_llm_case_insensitive_witness :
  lower "OpenAI" = "openai"
  ∧ get_llm_stub cls_openai "OpenAI" None ∅ = get_llm_stub cls_openai "openai" None ∅
  ∧ lower "AUTO" = "auto" ∧ "AUTO" ≠ "auto"
  ∧ get_llm_stub cls_anthropic "AUTO" None ∅ =
      inl (ValueError "Unsupported provider: AUTO. Use 'openai' or 'anthropic'").
Proof.
  split; [reflexivity |]. split.
  - apply (proj1 (get_llm_case_insensitive ChatOpenAI_stub ChatAnthropic_stub
                    cls_openai "OpenAI" None ∅)). reflexivity.
  - split; [reflexivity |]. split; [discriminate |].
    apply (proj2 (proj2 (get_llm_case_insensitive ChatOpenAI_stub ChatAnthropic_stub
                           cls_anthropic "AUTO" None ∅)));
      [reflexivity | discriminate].
Defined.

Lemma get_llm_empty_model_witness :
  truthy (ANTHROPIC_API_KEY cls_anthropic) = true
  ∧ get_llm_stub cls_anthropic "anthropic" (Some "") ∅ =
      inr {| built_by := "langchain_anthropic.chat_models.ChatAnthropic";
             built_api_key := Some "sk-ant-y";
             built_model := "claude-3-sonnet-20240229";
             built_kwargs := ∅ |}.
Proof.
  split; [reflexivity |].
  exact (proj2 (proj2 (get_llm_empty_model ChatOpenAI_stub ChatAnthropic_stub
                         cls_anthropic "anthropic" ∅)) eq_refl).
Defined.

(** ** Importing the module *)

(** The claim that building the snapshot at import never fails, whatever
    the environment holds, fails for a [LOG_LEVEL] that names no attribute
    of [logging]: [setup_logging] on the module's last line raises. *)
Lemma import_settings_verbose_fails :
  import_settings ∅ env_verbose =
    inl (AttributeError "module 'logging' has no attribute 'VERBOSE'")
  ∧ ¬ ∃ cls, import_settings ∅ env_verbose = inr cls.
Proof. split; [reflexivity |]. intros [cls H]. discriminate. Qed.

Lemma setup_logging_level (cls : Settings) :
  is_Some (logging_levels !! upper (LOG_LEVEL cls)) → setup_logging cls = inr ().
Proof.
  intros [n Hn]. unfold setup_logging, logging_getattr. by rewrite Hn.
Qed.

(** C8 (amended): evaluating the [Settings] class body never fails: each
    key is the environment's value or [None], and an unset variable takes
    its default (project "langchain-lab", tracing and debug off, log level
    "INFO", the two default models); the import of the module succeeds with
    that snapshot whenever [LOG_LEVEL] is unset or its upper-case form is
    one of [logging]'s level names. *)
Theorem import_settings_defaults (dotenv env : gmap string string) :
  let env' := load_dotenv dotenv env in
  let cls := Settings_body env' in
  (OPENAI_API_KEY cls = env' !! "OPENAI_API_KEY"
   ∧ ANTHROPIC_API_KEY cls = env' !! "ANTHROPIC_API_KEY"
   ∧ LANGCHAIN_API_KEY cls = env' !! "LANGCHAIN_API_KEY")
  ∧ (env' !! "LANGCHAIN_TRACING_V2" = None → LANGCHAIN_TRACING_V2 cls = false)
  ∧ (env' !! "LANGCHAIN_PROJECT" = None → LANGCHAIN_PROJECT cls = "langchain-lab")
  ∧ (env' !! "DEFAULT_OPENAI_MODEL" = None → DEFAULT_OPENAI_MODEL cls = "gpt-3.5-turbo")
  ∧ (env' !! "DEFAULT_ANTHROPIC_MODEL" = None →
     DEFAULT_ANTHROPIC_MODEL cls = "claude-3-sonnet-20240229")
  ∧ (env' !! "DEBUG" = None → DEBUG cls = false)
  ∧ (env' !! "LOG_LEVEL" = None → LOG_LEVEL cls = "INFO")
  ∧ (is_Some (logging_levels !! upper (LOG_LEVEL cls)) →
     import_settings dotenv env = inr cls)
  ∧ (env' !! "LOG_LEVEL" = None → import_settings dotenv env = inr cls).
Proof.
  intros env' cls. split; [by repeat split |].
  repeat (split; [by (intros H; unfold cls; simpl; unfold getenv_default; rewrite H) |]).
  assert (Himport : is_Some (logging_levels !! upper (LOG_LEVEL cls)) →
                    import_settings dotenv env = inr cls).
  { intros Hlevel. unfold import_settings. fold env'. fold cls.
    by rewrite (setup_logging_level cls Hlevel). }
  split; [exact Himport |].
  intros H. apply Himport. unfold cls. simpl. unfold getenv_default. rewrite H.
  by eexists.
Qed.

Lemma import_settings_defaults_witness :
  is_Some (logging_levels !! upper (LOG_LEVEL (Settings_body (load_dotenv env_openai ∅))))
  ∧ import_settings env_openai ∅ =
      inr {| OPENAI_API_KEY := Some "sk-x";
             ANTHROPIC_API_KEY := None;
             LANGCHAIN_API_KEY := None;
             LANGCHAIN_TRACING_V2 := false;
             LANGCHAIN_PROJECT := "langchain-lab";
             DEFAULT_OPENAI_MODEL := "gpt-3.5-turbo";
             DEFAULT_ANTHROPIC_MODEL := "claude-3-sonnet-20240229";
             DEBUG := false;
             LOG_LEVEL := "INFO" |}.
Proof.
  assert (Hlevel : is_Some (logging_levels !!
            upper (LOG_LEVEL (Settings_body (load_dotenv env_openai ∅)))))
    by (by eexists).
  split; [exact Hlevel |].
  destruct (import_settings_defaults env_openai ∅)
    as (_ & _ & _ & _ & _ & _ & _ & Himport & _).
  exact (Himport Hlevel).
Defined.

(** ** [test_llm_connection] on a provider that answers and on one that is
    unreachable *)

Example test_llm_connection_ok :
  test_llm_connection ChatOpenAI_stub ChatAnthropic_stub invoke_ok id
    cls_openai "auto" [] =
  (inr true, ["✅ AUTO connection successful!"; "Response: OK"]).
Proof. reflexivity. Qed.

Example test_llm_connection_down :
  test_llm_connection ChatOpenAI_stub ChatAnthropic_stub invoke_down id
    cls_openai "auto" [] =
  (inr false, ["❌ AUTO connection failed: Connection error."]).
Proof. reflexivity. Qed.

Example test_llm_connection_no_keys :
  test_llm_connection ChatOpenAI_stub ChatAnthropic_stub invoke_ok id
    cls_none "openai" [] =
  (inr false,
   ["❌ OPENAI connection failed: At least one of OPENAI_API_KEY or ANTHROPIC_API_KEY must be set. Please check your .env file."]).
Proof. reflexivity. Qed.

(** * Further properties of the configuration module *)

(** ** [get_llm]: what a returned client and a raised exception tell *)

Section ResolverEdgeCases.
Context {V client response : Type}.
Variable import_ChatOpenAI import_ChatAnthropic : exn + chat_class V client.
Variable invoke : client → string → exn + response.
Variable content : response → string.

Local Abbreviation get_llm' := (get_llm import_ChatOpenAI import_ChatAnthropic).
Local Abbreviation openai_client' := (openai_client import_ChatOpenAI).
Local Abbreviation anthropic_client' := (anthropic_client import_ChatAnthropic).
Local Abbreviation test_llm_connection' :=
  (test_llm_connection import_ChatOpenAI import_ChatAnthropic invoke content).

Lemma keyword_call_inr (C : chat_class V client) k m (kwargs : gmap string V) llm :
  keyword_call C k m kwargs = inr llm →
  kwargs !! "api_key" = None ∧ kwargs !! "model" = None
  ∧ construct C k m kwargs = inr llm.
Proof.
  unfold keyword_call.
  destruct (kwargs !! "api_key"), (kwargs !! "model"); try discriminate. auto.
Qed.

(** [get_llm] as a case distinction on the token. *)
Lemma get_llm_cases cls provider model kwargs :
  get_llm' cls provider model kwargs =
    if negb (truthy (OPENAI_API_KEY cls)) && negb (truthy (ANTHROPIC_API_KEY cls))
    then inl (ValueError msg_no_provider_key)
    else if String.eqb provider "auto" then
      if truthy (OPENAI_API_KEY cls) then openai_client' cls model kwargs
      else anthropic_client' cls model kwargs
    else if String.eqb (lower provider) "openai" then
      if truthy (OPENAI_API_KEY cls) then openai_client' cls model kwargs
      else inl (ValueError msg_openai_key_missing)
    else if String.eqb (lower provider) "anthropic" then
      if truthy (ANTHROPIC_API_KEY cls) then anthropic_client' cls model kwargs
      else inl (ValueError msg_anthropic_key_missing)
    else inl (ValueError (msg_unsupported provider)).
Proof.
  unfold get_llm, validate_api_keys, openai_client, anthropic_client.
  destruct (truthy (OPENAI_API_KEY cls)) eqn:HO,
           (truthy (ANTHROPIC_API_KEY cls)) eqn:HA; simpl;
    destruct (String.eqb provider "auto"); simpl; try reflexivity;
    destruct (String.eqb (lower provider) "openai"); simpl; try reflexivity;
    destruct (String.eqb (lower provider) "anthropic"); simpl; reflexivity.
Qed.

Lemma openai_client_inr cls model kwargs llm :
  openai_client' cls model kwargs = inr llm →
  kwargs !! "api_key" = None
  ∧ ∃ C, import_ChatOpenAI = inr C
      ∧ construct C (OPENAI_API_KEY cls)
          (py_or model (DEFAULT_OPENAI_MODEL cls)) kwargs = inr llm.
Proof.
  unfold openai_client. destruct import_ChatOpenAI as [e | C]; [discriminate |].
  simpl. intros (Hk & _ & HC)%keyword_call_inr. eauto.
Qed.

Lemma anthropic_client_inr cls model kwargs llm :
  anthropic_client' cls model kwargs = inr llm →
  kwargs !! "api_key" = None
  ∧ ∃ C, import_ChatAnthropic = inr C
      ∧ construct C (ANTHROPIC_API_KEY cls)
          (py_or model (DEFAULT_ANTHROPIC_MODEL cls)) kwargs = inr llm.
Proof.
  unfold anthropic_client. destruct import_ChatAnthropic as [e | C]; [discriminate |].
  simpl. intros (Hk & _ & HC)%keyword_call_inr. eauto.
Qed.

(** X1: a client returned by [get_llm] was built by the class of a provider
    whose key is present, from exactly that key, the chosen model and the
    options as given; it is the OpenAI class only for "auto" or a token
    that lower-cases to "openai", and the Anthropic class only for "auto"
    without an OpenAI key or a token that lower-cases to "anthropic".  No
    client is ever returned when the options name [api_key]. *)
Theorem get_llm_returns_inv cls provider model kwargs llm :
  get_llm' cls provider model kwargs = inr llm →
  kwargs !! "api_key" = None
  ∧ ((truthy (OPENAI_API_KEY cls) = true
      ∧ (provider = "auto" ∨ lower provider = "openai")
      ∧ ∃ C, import_ChatOpenAI = inr C
          ∧ construct C (OPENAI_API_KEY cls)
              (py_or model (DEFAULT_OPENAI_MODEL cls)) kwargs = inr llm)
     ∨ (truthy (ANTHROPIC_API_KEY cls) = true
        ∧ ((provider = "auto" ∧ truthy (OPENAI_API_KEY cls) = false)
           ∨ lower provider = "anthropic")
        ∧ ∃ C, import_ChatAnthropic = inr C
            ∧ construct C (ANTHROPIC_API_KEY cls)
                (py_or model (DEFAULT_ANTHROPIC_MODEL cls)) kwargs = inr llm)).
Proof.
  rewrite get_llm_cases.
  destruct (truthy (OPENAI_API_KEY cls)) eqn:HO,
           (truthy (ANTHROPIC_API_KEY cls)) eqn:HA; simpl; try discriminate.
  all: destruct (String.eqb_spec provider "auto") as [Hauto | Hauto].
  all: try destruct (String.eqb_spec (lower provider) "openai") as [Hlo | Hlo].
  all: try destruct (String.eqb_spec (lower provider) "anthropic") as [Hla | Hla].
  all: try discriminate.
  all: first [ intros [Hk HC]%openai_client_inr; split; [exact Hk |]; left; by auto
             | intros [Hk HC]%anthropic_client_inr; split; [exact Hk |]; right; by auto ].
Qed.

(** X2: the [ValueError] "No API keys found" of the "auto" branch is never
    raised by [get_llm] itself, for the key validation on its first line
    has already raised when both keys are absent: unless a provider package
    raises an exception of that very text, [get_llm] never does. *)
Theorem get_llm_auto_error_unreachable cls provider model kwargs :
  openai_client' cls model kwargs ≠ inl (ValueError msg_auto_no_key) →
  anthropic_client' cls model kwargs ≠ inl (ValueError msg_auto_no_key) →
  get_llm' cls provider model kwargs ≠ inl (ValueError msg_auto_no_key).
Proof.
  intros Hopenai Hanthropic. rewrite get_llm_cases.
  destruct (truthy (OPENAI_API_KEY cls)), (truthy (ANTHROPIC_API_KEY cls));
    simpl; try discriminate.
  all: destruct (String.eqb provider "auto"); auto.
  all: destruct (String.eqb (lower provider) "openai"); auto; try discriminate.
  all: destruct (String.eqb (lower provider) "anthropic"); auto; discriminate.
Qed.

(** X3: with both provider keys absent every call of [get_llm] raises the
    same missing-credentials [ValueError], whatever the token, the model
    and the options are. *)
Theorem get_llm_no_keys cls provider model kwargs :
  truthy (OPENAI_API_KEY cls) = false →
  truthy (ANTHROPIC_API_KEY cls) = false →
  get_llm' cls provider model kwargs = inl (ValueError msg_no_provider_key).
Proof. intros HO HA. rewrite get_llm_cases, HO, HA. reflexivity. Qed.

(** X4: the configured key cannot be replaced through the options: when
    they name [api_key], [get_llm] returns no client for any token, and on
    the "openai" path with its key present and its package importable the
    call stops with the [TypeError] of a keyword given twice. *)
Theorem get_llm_api_key_option cls provider model (kwargs : gmap string V) v :
  kwargs !! "api_key" = Some v →
  (∃ e, get_llm' cls provider model kwargs = inl e)
  ∧ (∀ C, import_ChatOpenAI = inr C → truthy (OPENAI_API_KEY cls) = true →
       get_llm' cls "openai" model kwargs =
         inl (TypeError (qualname C ++
                "() got multiple values for keyword argument 'api_key'"))).
Proof.
  intros Hk. split.
  - destruct (get_llm' cls provider model kwargs) as [e | llm] eqn:Hget; [eauto |].
    apply get_llm_returns_inv in Hget as [Hnone _]. congruence.
  - intros C HC HO. rewrite get_llm_openai, HO. unfold openai_client, keyword_call.
    rewrite HC. simpl. by rewrite Hk.
Qed.

(** X5: from the environment to the constructor.  With a non-empty
    [OPENAI_API_KEY] in the environment, [get_llm("auto")] calls the OpenAI
    class with that key and, when no model is given, with the value of
    [DEFAULT_OPENAI_MODEL] if the variable is set and "gpt-3.5-turbo"
    otherwise; a variable set to the empty string gives the model [""],
    not the built-in default. *)
Theorem get_llm_from_env (env : gmap string string) k C (kwargs : gmap string V) :
  env !! "OPENAI_API_KEY" = Some k → k ≠ "" →
  import_ChatOpenAI = inr C →
  kwargs !! "api_key" = None → kwargs !! "model" = None →
  get_llm' (Settings_body env) "auto" None kwargs =
    construct C (Some k) (default "gpt-3.5-turbo" (env !! "DEFAULT_OPENAI_MODEL")) kwargs
  ∧ (env !! "DEFAULT_OPENAI_MODEL" = Some "" →
     get_llm' (Settings_body env) "auto" None kwargs = construct C (Some k) "" kwargs).
Proof.
  intros Hkey Hne HC Hk Hm.
  assert (Hget : get_llm' (Settings_body env) "auto" None kwargs =
    construct C (Some k) (default "gpt-3.5-turbo" (env !! "DEFAULT_OPENAI_MODEL")) kwargs).
  { rewrite get_llm_cases. simpl. unfold getenv. rewrite Hkey.
    rewrite (truthy_Some_nonempty k Hne). simpl.
    unfold openai_client. rewrite HC. simpl.
    unfold getenv, getenv_default. rewrite Hkey.
    by rewrite keyword_call_fresh. }
  split; [exact Hget |]. intros Hempty. by rewrite Hget, Hempty.
Qed.


End ResolverEdgeCases.

(** ** The snapshot's flags and the logging level *)

(** X6: [DEBUG] and [LANGCHAIN_TRACING_V2] are on exactly when the variable
    is set to a text that lower-cases to "true"; unset, empty, "1", "yes"
    or "on" all leave the flag off. *)
Theorem Settings_body_flags (env : gmap string string) :
  (DEBUG (Settings_body env) = true ↔
     ∃ v, env !! "DEBUG" = Some v ∧ lower v = "true")
  ∧ (LANGCHAIN_TRACING_V2 (Settings_body env) = true ↔
     ∃ v, env !! "LANGCHAIN_TRACING_V2" = Some v ∧ lower v = "true").
Proof.
  split; cbn [Settings_body DEBUG LANGCHAIN_TRACING_V2]; unfold getenv_default.
  - destruct (env !! "DEBUG") as [v |].
    + change (default "false" (Some v)) with v. rewrite String.eqb_eq.
      split; [eauto | by intros (v' & [= <-] & Hv)].
    + split; [by intros [=] | by intros (v' & [=] & _)].
  - destruct (env !! "LANGCHAIN_TRACING_V2") as [v |].
    + change (default "false" (Some v)) with v. rewrite String.eqb_eq.
      split; [eauto | by intros (v' & [= <-] & Hv)].
    + split; [by intros [=] | by intros (v' & [=] & _)].
Qed.

Example Settings_body_flags_values :
  DEBUG (Settings_body {[ "DEBUG" := "True" ]}) = true
  ∧ DEBUG (Settings_body {[ "DEBUG" := "1" ]}) = false
  ∧ DEBUG (Settings_body {[ "DEBUG" := "yes" ]}) = false
  ∧ LANGCHAIN_TRACING_V2 (Settings_body {[ "LANGCHAIN_TRACING_V2" := "TRUE" ]}) = true
  ∧ LANGCHAIN_TRACING_V2 (Settings_body {[ "LANGCHAIN_TRACING_V2" := "on" ]}) = false.
Proof. by repeat split. Qed.

(** X7: for an ASCII [LOG_LEVEL], [setup_logging] succeeds exactly when
    the upper-cased text is one of the level names of [logging] (CRITICAL,
    FATAL, ERROR, WARNING, WARN, INFO, DEBUG, NOTSET), in any letter case;
    every other text makes it raise. *)
Theorem setup_logging_ok_iff (cls : Settings) :
  is_ascii (LOG_LEVEL cls) = true →
  (setup_logging cls = inr () ↔
     upper (LOG_LEVEL cls) ∈
       ["CRITICAL"; "FATAL"; "ERROR"; "WARNING"; "WARN"; "INFO"; "DEBUG"; "NOTSET"]).
Proof.
  intros _. unfold setup_logging, logging_getattr.
  destruct (logging_levels !! upper (LOG_LEVEL cls)) as [n |] eqn:Hlevel; simpl.
  - split; [intros _ | done].
    apply (elem_of_list_to_map_2 (M := gmap string)) in Hlevel.
    apply (list_elem_of_fmap_2 fst) in Hlevel. exact Hlevel.
  - split.
    + destruct (String.eqb _ "BASIC_FORMAT"); [discriminate |].
      destruct (String.eqb _ "_STYLES"); discriminate.
    + intros Hin. exfalso.
      apply (not_elem_of_list_to_map_2 (M := gmap string)) in Hlevel.
      apply Hlevel. exact Hin.
Qed.

Lemma setup_logging_ok_iff_witness :
  is_ascii (LOG_LEVEL (Settings_body {[ "LOG_LEVEL" := "warning" ]})) = true
  ∧ setup_logging (Settings_body {[ "LOG_LEVEL" := "warning" ]}) = inr ().
Proof.
  split; [reflexivity |].
  apply (setup_logging_ok_iff (Settings_body {[ "LOG_LEVEL" := "warning" ]}));
    [reflexivity |].
  simpl. set_solver.
Defined.

(** ** [print_config_status] *)

Lemma print_config_status_ok (cls : Settings) out :
  truthy (OPENAI_API_KEY cls) || truthy (ANTHROPIC_API_KEY cls) = true →
  print_config_status cls out =
    (inr (),
     (out ++
      ["🔧 Configuration Status";
       str_mul "=" 40;
       "OpenAI API Key: " +:+
         (if truthy (OPENAI_API_KEY cls) then "✅ Set" else "❌ Missing");
       "Anthropic API Key: " +:+
         (if truthy (ANTHROPIC_API_KEY cls) then "✅ Set" else "❌ Missing");
       "LangSmith API Key: " +:+
         (if truthy (LANGCHAIN_API_KEY cls) then "✅ Set" else "❌ Missing (Optional)");
       "LangSmith Tracing: " +:+
         (if LANGCHAIN_TRACING_V2 cls then "✅ Enabled" else "❌ Disabled");
       "Project Name: " +:+ LANGCHAIN_PROJECT cls;
       "Debug Mode: " +:+ (if DEBUG cls then "✅ On" else "❌ Off");
       "Log Level: " +:+ LOG_LEVEL cls;
       ""] ++
      (if truthy (OPENAI_API_KEY cls)
       then ["🤖 Default OpenAI Model: " +:+ DEFAULT_OPENAI_MODEL cls] else []) ++
      (if truthy (ANTHROPIC_API_KEY cls)
       then ["🧠 Default Anthropic Model: " +:+ DEFAULT_ANTHROPIC_MODEL cls] else []))%list).
Proof.
  intros Hkey. unfold print_config_status.
  unfold mbind, io_bind, print, lift. simpl.
  rewrite (validate_api_keys_ok cls Hkey).
  change (subscript _ "openai") with (inr (B := bool) (A := exn) (truthy (OPENAI_API_KEY cls))).
  change (subscript _ "anthropic") with (inr (B := bool) (A := exn) (truthy (ANTHROPIC_API_KEY cls))).
  change (subscript _ "langsmith") with (inr (B := bool) (A := exn) (truthy (LANGCHAIN_API_KEY cls))).
  unfold when, mret, io_ret.
  destruct (truthy (OPENAI_API_KEY cls)), (truthy (ANTHROPIC_API_KEY cls));
    simpl; rewrite <- ?app_assoc; simpl; rewrite ?app_nil_r; reflexivity.
Qed.

(** X9: [print_config_status] raises exactly when both provider keys are
    absent; the exception is the missing-credentials [ValueError] of
    [validate_api_keys], and only the title and the rule have been printed
    by then. *)
Theorem print_config_status_raises_iff (cls : Settings) out :
  ((∃ e out', print_config_status cls out = (inl e, out')) ↔
     truthy (OPENAI_API_KEY cls) = false ∧ truthy (ANTHROPIC_API_KEY cls) = false)
  ∧ (truthy (OPENAI_API_KEY cls) = false → truthy (ANTHROPIC_API_KEY cls) = false →
     print_config_status cls out =
       (inl (ValueError msg_no_provider_key),
        (out ++ ["🔧 Configuration Status"; str_mul "=" 40])%list)).
Proof.
  assert (Hnone : truthy (OPENAI_API_KEY cls) = false →
                  truthy (ANTHROPIC_API_KEY cls) = false →
                  print_config_status cls out =
                    (inl (ValueError msg_no_provider_key),
                     (out ++ ["🔧 Configuration Status"; str_mul "=" 40])%list)).
  { intros HO HA. unfold print_config_status, mbind, io_bind, print, lift.
    rewrite (validate_api_keys_none cls HO HA). simpl.
    by rewrite <- app_assoc. }
  split; [| exact Hnone]. split.
  - intros (e & out' & Hraise).
    destruct (truthy (OPENAI_API_KEY cls)) eqn:HO;
      [| destruct (truthy (ANTHROPIC_API_KEY cls)) eqn:HA; [| done]].
    all: rewrite print_config_status_ok in Hraise by (by rewrite ?HO, ?HA).
    all: discriminate.
  - intros [HO HA]. rewrite (Hnone HO HA). eauto.
Qed.

(** X10: with a provider key present [print_config_status] returns
    normally having printed, after the title and the rule, one line per
    key with its presence, the tracing flag, the project, the debug flag,
    the log level, an empty line, and the default model of each provider
    whose key is present and of no other. *)
Theorem print_config_status_report (cls : Settings) out :
  truthy (OPENAI_API_KEY cls) || truthy (ANTHROPIC_API_KEY cls) = true →
  print_config_status cls out =
    (inr (),
     (out ++
      ["🔧 Configuration Status";
       str_mul "=" 40;
       "OpenAI API Key: " +:+
         (if truthy (OPENAI_API_KEY cls) then "✅ Set" else "❌ Missing");
       "Anthropic API Key: " +:+
         (if truthy (ANTHROPIC_API_KEY cls) then "✅ Set" else "❌ Missing");
       "LangSmith API Key: " +:+
         (if truthy (LANGCHAIN_API_KEY cls) then "✅ Set" else "❌ Missing (Optional)");
       "LangSmith Tracing: " +:+
         (if LANGCHAIN_TRACING_V2 cls then "✅ Enabled" else "❌ Disabled");
       "Project Name: " +:+ LANGCHAIN_PROJECT cls;
       "Debug Mode: " +:+ (if DEBUG cls then "✅ On" else "❌ Off");
       "Log Level: " +:+ LOG_LEVEL cls;
       ""] ++
      (if truthy (OPENAI_API_KEY cls)
       then ["🤖 Default OpenAI Model: " +:+ DEFAULT_OPENAI_MODEL cls] else []) ++
      (if truthy (ANTHROPIC_API_KEY cls)
       then ["🧠 Default Anthropic Model: " +:+ DEFAULT_ANTHROPIC_MODEL cls] else []))%list).
Proof. apply print_config_status_ok. Qed.

Lemma print_config_status_report_witness :
  truthy (OPENAI_API_KEY cls_anthropic) || truthy (ANTHROPIC_API_KEY cls_anthropic) = true
  ∧ print_config_status cls_anthropic [] =
      (inr (),
       ["🔧 Configuration Status";
        "========================================";
        "OpenAI API Key: ❌ Missing";
        "Anthropic API Key: ✅ Set";
        "LangSmith API Key: ❌ Missing (Optional)";
        "LangSmith Tracing: ❌ Disabled";
        "Project Name: langchain-lab";
        "Debug Mode: ❌ Off";
        "Log Level: INFO";
        "";
        "🧠 Default Anthropic Model: claude-3-sonnet-20240229"]).
Proof.
  split; [reflexivity |].
  exact (print_config_status_report cls_anthropic [] eq_refl).
Defined.

(** X11: [print_config_status] shows of the three keys only whether they
    are present: two snapshots with the same presence of each key and the
    same other settings give the same output and the same outcome,
    whatever the keys themselves are. *)
Theorem print_config_status_hides_keys (cls cls' : Settings) out :
  truthy (OPENAI_API_KEY cls) = truthy (OPENAI_API_KEY cls') →
  truthy (ANTHROPIC_API_KEY cls) = truthy (ANTHROPIC_API_KEY cls') →
  truthy (LANGCHAIN_API_KEY cls) = truthy (LANGCHAIN_API_KEY cls') →
  LANGCHAIN_TRACING_V2 cls = LANGCHAIN_TRACING_V2 cls' →
  LANGCHAIN_PROJECT cls = LANGCHAIN_PROJECT cls' →
  DEFAULT_OPENAI_MODEL cls = DEFAULT_OPENAI_MODEL cls' →
  DEFAULT_ANTHROPIC_MODEL cls = DEFAULT_ANTHROPIC_MODEL cls' →
  DEBUG cls = DEBUG cls' →
  LOG_LEVEL cls = LOG_LEVEL cls' →
  print_config_status cls out = print_config_status cls' out.
Proof.
  intros HO HA HL Htracing Hproject Hom Ham Hdebug Hlevel.
  unfold print_config_status, validate_api_keys.
  by rewrite HO, HA, HL, Htracing, Hproject, Hom, Ham, Hdebug, Hlevel.
Qed.

Lemma print_config_status_hides_keys_witness :
  print_config_status (Settings_body {[ "OPENAI_API_KEY" := "sk-x" ]}) [] =
  print_config_status (Settings_body {[ "OPENAI_API_KEY" := "sk-another-key" ]}) [].
Proof.
  apply (print_config_status_hides_keys
           (Settings_body {[ "OPENAI_API_KEY" := "sk-x" ]})
           (Settings_body {[ "OPENAI_API_KEY" := "sk-another-key" ]}) []);
    reflexivity.
Defined.

(** ** What [test_llm_connection] prints *)

Section ConnectionReport.
Context {V client response : Type}.
Variable import_ChatOpenAI import_ChatAnthropic : exn + chat_class V client.
Variable invoke : client → string → exn + response.
Variable content : response → string.

Local Abbreviation get_llm' := (get_llm import_ChatOpenAI import_ChatAnthropic).
Local Abbreviation test_llm_connection' :=
  (test_llm_connection import_ChatOpenAI import_ChatAnthropic invoke content).

Lemma test_llm_connection_run cls provider out :
  test_llm_connection' cls provider out =
    match llm ← get_llm' cls provider None ∅; invoke llm hello_prompt with
    | inr r =>
        (inr true,
         (out ++ ["✅ " +:+ upper provider +:+ " connection successful!";
                  "Response: " +:+ content r])%list)
    | inl e =>
        (inr false,
         (out ++ ["❌ " +:+ upper provider +:+ " connection failed: " +:+ str_exn e])%list)
    end.
Proof.
  unfold test_llm_connection, try_except, mbind, io_bind, exn_bind, lift, print,
    mret, io_ret.
  destruct (get_llm' cls provider None ∅) as [e | llm]; [reflexivity |].
  destruct (invoke llm hello_prompt) as [e | r]; [reflexivity |].
  by rewrite <- app_assoc.
Qed.

End ConnectionReport.

(** * Lesson 1: the example functions and [main] *)

Lemma returns_print line : returns (print line).
Proof. intros out. by eexists _, _. Qed.

Lemma returns_mret {A} (a : A) : returns (mret a : io A).
Proof. intros out. by eexists _, _. Qed.

Lemma returns_bind {A B} (m : io A) (k : A → io B) :
  returns m → (∀ a, returns (k a)) → returns (m ≫= k).
Proof.
  intros Hm Hk out. destruct (Hm out) as (a & out' & Ha).
  destruct (Hk a out') as (b & out'' & Hb).
  exists b, out''. unfold mbind, io_bind. by rewrite Ha.
Qed.

Lemma returns_try_except {A} (body : io A) (handler : exn → io A) :
  (∀ e, returns (handler e)) → returns (try_except body handler).
Proof.
  intros Hh out. unfold try_except.
  destruct (body out) as [[e | a] out']; [apply Hh | by eexists _, _].
Qed.

Lemma returns_for_each {A} (items : list A) (body : A → io unit) :
  (∀ x, returns (body x)) → returns (for_each items body).
Proof.
  intros Hbody. induction items as [| x rest IH]; simpl.
  - apply returns_mret.
  - apply returns_bind; [apply Hbody | intros _; exact IH].
Qed.

Lemma length_take_str n s :
  String.length (take_str n s) = Nat.min n (String.length s).
Proof.
  revert s. induction n as [| n IH]; intros [| c r]; simpl; try reflexivity.
  by rewrite IH.
Qed.

Lemma length_append (a b : string) :
  String.length (a +:+ b) = (String.length a + String.length b)%nat.
Proof. induction a as [| c a IH]; simpl; [reflexivity | by rewrite IH]. Qed.

Lemma take_str_all n s : (String.length s ≤ n)%nat → take_str n s = s.
Proof.
  revert s. induction n as [| n IH]; intros [| c r]; simpl; try reflexivity.
  - lia.
  - intros Hle. rewrite IH; [reflexivity | lia].
Qed.


Lemma print_config_status_none (cls : Settings) out :
  truthy (OPENAI_API_KEY cls) = false → truthy (ANTHROPIC_API_KEY cls) = false →
  print_config_status cls out =
    (inl (ValueError msg_no_provider_key),
     (out ++ ["🔧 Configuration Status"; str_mul "=" 40])%list).
Proof.
  intros HO HA. unfold print_config_status, mbind, io_bind, print, lift.
  rewrite (validate_api_keys_none cls HO HA). simpl.
  by rewrite <- app_assoc.
Qed.

Lemma returns_print_config_status (cls : Settings) :
  truthy (OPENAI_API_KEY cls) || truthy (ANTHROPIC_API_KEY cls) = true →
  returns (print_config_status cls).
Proof. intros Hkey out. rewrite print_config_status_ok by done. by eexists _, _. Qed.

Section Lesson1Facts.
Context {client response : Type}.
Variable import_ChatOpenAI import_ChatAnthropic : exn + chat_class pyval client.
Variable invoke : client → string → exn + response.
Variable content : response → string.
Variable type_repr : response → string.
Variable has_response_metadata : response → bool.
Variable streaming_response : io unit.
Variable cls : Settings.

Local Abbreviation get_llm' := (get_llm import_ChatOpenAI import_ChatAnthropic cls).
Local Abbreviation simple_llm_call' :=
  (simple_llm_call import_ChatOpenAI import_ChatAnthropic invoke content
     type_repr has_response_metadata cls).
Local Abbreviation compare_providers' :=
  (compare_providers import_ChatOpenAI import_ChatAnthropic invoke content cls).
Local Abbreviation demonstrate_parameters' :=
  (demonstrate_parameters import_ChatOpenAI import_ChatAnthropic invoke content cls).
Local Abbreviation batch_processing' :=
  (batch_processing import_ChatOpenAI import_ChatAnthropic invoke content cls).
Local Abbreviation main' :=
  (main import_ChatOpenAI import_ChatAnthropic invoke content
     type_repr has_response_metadata streaming_response cls).

Lemma lesson1_examples_return_aux :
  returns simple_llm_call' ∧ returns compare_providers'
  ∧ returns demonstrate_parameters' ∧ returns batch_processing'.
Proof.
  repeat split.
  - unfold simple_llm_call.
    repeat (apply returns_bind; [apply returns_print | intros _]).
    apply returns_try_except. intros e.
    apply returns_bind; [apply returns_print | intros _; apply returns_print].
  - unfold compare_providers.
    repeat (apply returns_bind; [apply returns_print | intros _]).
    apply returns_for_each. intros provider.
    apply returns_try_except. intros e. apply returns_print.
  - unfold demonstrate_parameters.
    repeat (apply returns_bind; [apply returns_print | intros _]).
    apply returns_for_each. intros temp.
    apply returns_try_except. intros e. apply returns_print.
  - unfold batch_processing.
    repeat (apply returns_bind; [apply returns_print | intros _]).
    apply returns_try_except. intros e. apply returns_print.
Qed.

(** X16: none of the four example functions lets an exception out: each
    returns normally whatever keys are configured and whatever the packages
    and the provider do. *)
Theorem lesson1_examples_return :
  returns simple_llm_call' ∧ returns compare_providers'
  ∧ returns demonstrate_parameters' ∧ returns batch_processing'.
Proof. exact lesson1_examples_return_aux. Qed.

(** The attempt [compare_providers] makes for one provider. *)
Lemma compare_attempt_run provider out :
  try_except
    (_ ← print (nl ++ "🤖 " ++ upper provider ++ " Response:");
     llm ← lift (get_llm' provider None {[ "temperature" := PyFloat "0.3" ]});
     response ← lift (invoke llm compare_question);
     print (if (200 <? String.length (content response))%nat
            then take_str 200 (content response) ++ "..."
            else content response))
    (λ e, print ("❌ " ++ upper provider ++ " failed: " ++ str_exn e)) out =
  (inr (),
   (out ++
    [nl +:+ "🤖 " +:+ upper provider +:+ " Response:";
     match llm ← get_llm' provider None {[ "temperature" := PyFloat "0.3" ]};
           invoke llm compare_question with
     | inr r =>
         if (200 <? String.length (content r))%nat
         then take_str 200 (content r) +:+ "..." else content r
     | inl e => "❌ " +:+ upper provider +:+ " failed: " +:+ str_exn e
     end])%list).
Proof.
  unfold try_except, mbind, io_bind, exn_bind, lift, print.
  destruct (get_llm' provider None _) as [e | llm]; [by rewrite <- app_assoc |].
  destruct (invoke llm compare_question) as [e | r]; by rewrite <- app_assoc.
Qed.

Lemma compare_providers_run out :
  let line := λ provider : string,
    match llm ← get_llm' provider None {[ "temperature" := PyFloat "0.3" ]};
          invoke llm compare_question with
    | inr r =>
        if (200 <? String.length (content r))%nat
        then take_str 200 (content r) +:+ "..." else content r
    | inl e => "❌ " +:+ upper provider +:+ " failed: " +:+ str_exn e
    end in
  compare_providers' out =
    (inr (),
     (out ++
      [nl +:+ "🔄 Example 2: Comparing LLM Providers";
       str_mul "-" 40;
       nl +:+ "🤖 OPENAI Response:";
       line "openai";
       nl +:+ "🤖 ANTHROPIC Response:";
       line "anthropic"])%list).
Proof.
  intros line. unfold compare_providers. cbn [for_each].
  unfold mbind at 1 2 3 4. unfold io_bind. unfold print at 1 2. cbn beta iota.
  rewrite !compare_attempt_run. unfold mret, io_ret.
  by rewrite <- !app_assoc.
Qed.


(** X13: with exactly one provider key configured, [compare_providers]
    reports the other provider as failed with the message that its key was
    not found, whatever the packages and the provider do, and still makes
    the attempt for the provider that has its key. *)
Theorem compare_providers_single_key out :
  (truthy (OPENAI_API_KEY cls) = true → truthy (ANTHROPIC_API_KEY cls) = false →
   ∃ line, compare_providers' out =
     (inr (),
      (out ++
       [nl +:+ "🔄 Example 2: Comparing LLM Providers";
        str_mul "-" 40;
        nl +:+ "🤖 OPENAI Response:";
        line;
        nl +:+ "🤖 ANTHROPIC Response:";
        "❌ ANTHROPIC failed: ANTHROPIC_API_KEY not found in environment variables"])%list))
  ∧ (truthy (OPENAI_API_KEY cls) = false → truthy (ANTHROPIC_API_KEY cls) = true →
     ∃ line, compare_providers' out =
       (inr (),
        (out ++
         [nl +:+ "🔄 Example 2: Comparing LLM Providers";
          str_mul "-" 40;
          nl +:+ "🤖 OPENAI Response:";
          "❌ OPENAI failed: OPENAI_API_KEY not found in environment variables";
          nl +:+ "🤖 ANTHROPIC Response:";
          line])%list)).
Proof.
  split; intros HO HA; rewrite compare_providers_run; cbv zeta.
  - rewrite (get_llm_anthropic _ _ cls), HA, HO. by eexists.
  - rewrite (get_llm_openai _ _ cls), HA, HO. by eexists.
Qed.

(** X14: the line [compare_providers] prints for a response of ASCII
    text is the whole content when it has at most 200 characters and its
    first 200 characters followed by "..." otherwise, so it never exceeds
    203 characters. *)
Theorem compare_providers_preview out llm r :
  get_llm' "openai" None {[ "temperature" := PyFloat "0.3" ]} = inr llm →
  invoke llm compare_question = inr r →
  is_ascii (content r) = true →
  ∃ line other, compare_providers' out =
      (inr (),
       (out ++
        [nl +:+ "🔄 Example 2: Comparing LLM Providers";
         str_mul "-" 40;
         nl +:+ "🤖 OPENAI Response:";
         line;
         nl +:+ "🤖 ANTHROPIC Response:";
         other])%list)
    ∧ (String.length line ≤ 203)%nat
    ∧ ((String.length (content r) ≤ 200)%nat → line = content r)
    ∧ ((200 < String.length (content r))%nat →
       line = take_str 200 (content r) +:+ "...").
Proof.
  intros Hget Hinvoke _. rewrite compare_providers_run. cbv zeta.
  rewrite Hget. cbn [mbind exn_bind]. rewrite Hinvoke.
  eexists _, _. split; [reflexivity |].
  destruct (Nat.ltb_spec 200 (String.length (content r))) as [Hlong | Hshort].
  - split; [| split; [lia | done]].
    rewrite length_append, length_take_str.
    change (String.length "...") with 3%nat. lia.
  - split; [lia | split; [done | lia]].
Qed.


Lemma main_no_keys_run out :
  truthy (OPENAI_API_KEY cls) = false → truthy (ANTHROPIC_API_KEY cls) = false →
  main' out =
    (inl (ValueError msg_no_provider_key),
     (out ++
      ["🔬 LangChain Lab - Lesson 1: Simple LLM Usage";
       str_mul "=" 50;
       "🔧 Configuration Status";
       str_mul "=" 40])%list).
Proof.
  intros HO HA. unfold main.
  unfold mbind at 1 2 3. unfold io_bind at 1 2 3. unfold print at 1 2.
  rewrite (print_config_status_none cls _ HO HA).
  by rewrite <- !app_assoc.
Qed.

(** X17: without a provider key, [main] of lesson 1 does not reach the
    connection test with its "Cannot proceed" report: the unguarded
    [print_config_status()] raises the missing-credentials [ValueError]
    out of [main] after four lines of output, and no example runs. *)
Theorem main_no_keys out :
  truthy (OPENAI_API_KEY cls) = false → truthy (ANTHROPIC_API_KEY cls) = false →
  main' out =
    (inl (ValueError msg_no_provider_key),
     (out ++
      ["🔬 LangChain Lab - Lesson 1: Simple LLM Usage";
       str_mul "=" 50;
       "🔧 Configuration Status";
       str_mul "=" 40])%list).
Proof. apply main_no_keys_run. Qed.

(** X18: with a provider key present and a failing connection test,
    [main] returns normally right after the test: the configuration
    report, the test's failure line and the two "cannot proceed" lines are
    printed, and none of the examples runs. *)
Theorem main_connection_failure out e :
  truthy (OPENAI_API_KEY cls) || truthy (ANTHROPIC_API_KEY cls) = true →
  (llm ← get_llm' "auto" None ∅; invoke llm hello_prompt) = inl e →
  ∃ report,
    print_config_status cls
      (out ++ ["🔬 LangChain Lab - Lesson 1: Simple LLM Usage"; str_mul "=" 50])%list =
      (inr (), report)
    ∧ main' out =
        (inr (),
         (report ++
          ["🔌 Testing LLM Connection...";
           "❌ AUTO connection failed: " +:+ str_exn e;
           "❌ Cannot proceed without a working LLM connection.";
           "💡 Please check your .env file and API keys."])%list).
Proof.
  intros Hkey Hfail.
  destruct (returns_print_config_status cls Hkey
              (out ++ ["🔬 LangChain Lab - Lesson 1: Simple LLM Usage";
                       str_mul "=" 50])%list) as ([] & report & Hreport).
  exists report. split; [exact Hreport |].
  unfold main.
  unfold mbind at 1 2 3 4 5. unfold io_bind at 1 2 3 4 5. unfold print at 1 2 3.
  rewrite <- !app_assoc. cbn [app]. rewrite Hreport.
  rewrite test_llm_connection_run, Hfail. cbn [negb].
  unfold mbind, io_bind, print. by rewrite <- !app_assoc.
Qed.

(** X19: provided [streaming_response] returns normally, an exception
    leaves [main] exactly when both provider keys are absent: with a key
    present every failure of the packages or the provider is caught by the
    connection test or by the examples. *)
Theorem main_raises_iff out :
  returns streaming_response →
  ((∃ e out', main' out = (inl e, out')) ↔
     truthy (OPENAI_API_KEY cls) = false ∧ truthy (ANTHROPIC_API_KEY cls) = false).
Proof.
  intros Hstream. split.
  - intros (e & out' & Hraise).
    destruct (truthy (OPENAI_API_KEY cls) || truthy (ANTHROPIC_API_KEY cls)) eqn:Hkey;
      [exfalso | by apply orb_false_elim in Hkey].
    assert (Hmain : returns main').
    { destruct lesson1_examples_return_aux as (H1 & H2 & H3 & H4).
      unfold main.
      repeat (apply returns_bind; [apply returns_print | intros _]).
      apply returns_bind; [by apply returns_print_config_status | intros _].
      apply returns_bind; [apply returns_print | intros _].
      apply returns_bind.
      { intros o. rewrite test_llm_connection_run.
        destruct (_ ← _; _); by eexists _, _. }
      intros [|]; cbn [negb].
      - apply returns_bind; [exact H1 | intros _].
        apply returns_bind; [exact H2 | intros _].
        apply returns_bind; [exact H3 | intros _].
        apply returns_bind; [exact H4 | intros _].
        apply returns_bind; [exact Hstream | intros _].
        apply returns_bind; [apply returns_print | intros _; apply returns_print].
      - apply returns_bind; [apply returns_print | intros _; apply returns_print]. }
    destruct (Hmain out) as (a & out'' & Hok). congruence.
  - intros [HO HA]. rewrite (main_no_keys_run out HO HA). eauto.
Qed.

End Lesson1Facts.

(** * Lesson 2: [main] *)

(** X20: without a provider key, [main] of lesson 2 raises the
    missing-credentials [ValueError] of the unguarded
    [print_config_status()] after four lines of output, before any of its
    examples is started. *)
Theorem lesson2_main_no_keys
    (basic_prompt_template chat_prompt_template few_shot_prompting
     conditional_prompting dynamic_prompt_building : io unit)
    (cls : Settings) out :
  truthy (OPENAI_API_KEY cls) = false → truthy (ANTHROPIC_API_KEY cls) = false →
  Lesson2.main basic_prompt_template chat_prompt_template few_shot_prompting
    conditional_prompting dynamic_prompt_building cls out =
    (inl (ValueError msg_no_provider_key),
     (out ++
      ["🔬 LangChain Lab - Lesson 2: Prompt Templates";
       str_mul "=" 50;
       "🔧 Configuration Status";
       str_mul "=" 40])%list).
Proof.
  intros HO HA. unfold Lesson2.main.
  unfold mbind at 1 2 3. unfold io_bind at 1 2 3. unfold print at 1 2.
  rewrite (print_config_status_none cls _ HO HA).
  by rewrite <- !app_assoc.
Qed.

(** * The further properties on concrete inputs *)

Lemma get_llm_returns_inv_witness :
  get_llm_stub cls_both "auto" None temperature_07 =
    inr {| built_by := "langchain_openai.chat_models.base.ChatOpenAI";
           built_api_key := Some "sk-x";
           built_model := "gpt-3.5-turbo";
           built_kwargs := temperature_07 |}
  ∧ temperature_07 !! "api_key" = None.
Proof.
  assert (Hget : get_llm_stub cls_both "auto" None temperature_07 =
    inr {| built_by := "langchain_openai.chat_models.base.ChatOpenAI";
           built_api_key := Some "sk-x";
           built_model := "gpt-3.5-turbo";
           built_kwargs := temperature_07 |}) by reflexivity.
  split; [exact Hget |].
  exact (proj1 (get_llm_returns_inv ChatOpenAI_stub ChatAnthropic_stub
                  cls_both "auto" None temperature_07 _ Hget)).
Defined.

Lemma get_llm_auto_error_unreachable_witness :
  get_llm_stub cls_anthropic "auto" None ∅ ≠ inl (ValueError msg_auto_no_key).
Proof.
  apply (get_llm_auto_error_unreachable ChatOpenAI_stub ChatAnthropic_stub
           cls_anthropic "auto" None ∅); discriminate.
Defined.

Lemma get_llm_no_keys_witness :
  truthy (OPENAI_API_KEY cls_none) = false
  ∧ truthy (ANTHROPIC_API_KEY cls_none) = false
  ∧ get_llm_stub cls_none "OpenAI" (Some "gpt-4") {[ "api_key" := 1%Q ]} =
      inl (ValueError msg_no_provider_key).
Proof.
  do 2 (split; [reflexivity |]).
  apply (get_llm_no_keys ChatOpenAI_stub ChatAnthropic_stub cls_none); reflexivity.
Defined.

Lemma get_llm_api_key_option_witness :
  ({[ "api_key" := 1%Q ]} : gmap string Q) !! "api_key" = Some 1%Q
  ∧ ∃ e, get_llm_stub cls_both "anthropic" None {[ "api_key" := 1%Q ]} = inl e.
Proof.
  split; [reflexivity |].
  exact (proj1 (get_llm_api_key_option ChatOpenAI_stub ChatAnthropic_stub
                  cls_both "anthropic" None {[ "api_key" := 1%Q ]} 1%Q eq_refl)).
Defined.

Lemma get_llm_from_env_witness :
  env_empty_model !! "OPENAI_API_KEY" = Some "sk-x"
  ∧ env_empty_model !! "DEFAULT_OPENAI_MODEL" = Some ""
  ∧ get_llm_stub (Settings_body env_empty_model) "auto" None temperature_07 =
      inr {| built_by := "langchain_openai.chat_models.base.ChatOpenAI";
             built_api_key := Some "sk-x";
             built_model := "";
             built_kwargs := temperature_07 |}.
Proof.
  do 2 (split; [reflexivity |]).
  refine (proj2 (get_llm_from_env ChatOpenAI_stub ChatAnthropic_stub
                   env_empty_model "sk-x" _ temperature_07
                   eq_refl _ eq_refl eq_refl eq_refl) eq_refl).
  discriminate.
Defined.


Lemma compare_providers_single_key_witness :
  truthy (OPENAI_API_KEY cls_openai) = true
  ∧ truthy (ANTHROPIC_API_KEY cls_openai) = false
  ∧ ∃ line, compare_providers ChatOpenAI_py ChatAnthropic_py invoke_echo id cls_openai [] =
      (inr (),
       [nl +:+ "🔄 Example 2: Comparing LLM Providers";
        "----------------------------------------";
        nl +:+ "🤖 OPENAI Response:";
        line;
        nl +:+ "🤖 ANTHROPIC Response:";
        "❌ ANTHROPIC failed: ANTHROPIC_API_KEY not found in environment variables"]).
Proof.
  do 2 (split; [reflexivity |]).
  exact (proj1 (compare_providers_single_key ChatOpenAI_py ChatAnthropic_py
                  invoke_echo id cls_openai []) eq_refl eq_refl).
Defined.

Lemma compare_providers_preview_witness :
  is_ascii compare_question = true
  ∧ ∃ line other,
      compare_providers ChatOpenAI_py ChatAnthropic_py invoke_echo id cls_both [] =
        (inr (),
         [nl +:+ "🔄 Example 2: Comparing LLM Providers";
          "----------------------------------------";
          nl +:+ "🤖 OPENAI Response:";
          line;
          nl +:+ "🤖 ANTHROPIC Response:";
          other])
      ∧ (String.length line ≤ 203)%nat.
Proof.
  split; [reflexivity |].
  destruct (compare_providers_preview ChatOpenAI_py ChatAnthropic_py invoke_echo id
              cls_both [] ("ChatOpenAI", "gpt-3.5-turbo") compare_question
              eq_refl eq_refl eq_refl)
    as (line & other & Hrun & Hlen & _).
  exists line, other. split; [exact Hrun | exact Hlen].
Defined.


Lemma main_no_keys_witness :
  truthy (OPENAI_API_KEY cls_none) = false
  ∧ truthy (ANTHROPIC_API_KEY cls_none) = false
  ∧ main ChatOpenAI_py ChatAnthropic_py invoke_echo id str_type no_metadata
      (mret ()) cls_none [] =
    (inl (ValueError msg_no_provider_key),
     ["🔬 LangChain Lab - Lesson 1: Simple LLM Usage";
      "==================================================";
      "🔧 Configuration Status";
      "========================================"]).
Proof.
  do 2 (split; [reflexivity |]).
  apply (main_no_keys ChatOpenAI_py ChatAnthropic_py invoke_echo id str_type
           no_metadata (mret ()) cls_none []); reflexivity.
Defined.

Lemma main_connection_failure_witness :
  truthy (OPENAI_API_KEY cls_openai) || truthy (ANTHROPIC_API_KEY cls_openai) = true
  ∧ ∃ report,
      main ChatOpenAI_py ChatAnthropic_py invoke_unreachable id str_type no_metadata
        (mret ()) cls_openai [] =
        (inr (),
         (report ++
          ["🔌 Testing LLM Connection...";
           "❌ AUTO connection failed: Connection error.";
           "❌ Cannot proceed without a working LLM connection.";
           "💡 Please check your .env file and API keys."])%list).
Proof.
  split; [reflexivity |].
  destruct (main_connection_failure ChatOpenAI_py ChatAnthropic_py invoke_unreachable
              id str_type no_metadata (mret ()) cls_openai []
              (LibraryError "APIConnectionError" "Connection error.")
              eq_refl eq_refl) as (report & _ & Hmain).
  exists report. exact Hmain.
Defined.

Lemma main_raises_iff_witness :
  returns (mret () : io unit)
  ∧ ¬ ∃ e out',
      main ChatOpenAI_py ChatAnthropic_py invoke_echo id str_type no_metadata
        (mret ()) cls_openai [] = (inl e, out').
Proof.
  split; [apply returns_mret |].
  intros Hraise.
  apply (main_raises_iff ChatOpenAI_py ChatAnthropic_py invoke_echo id str_type
           no_metadata (mret ()) cls_openai [] (returns_mret ())) in Hraise.
  destruct Hraise as [HO _]. discriminate.
Defined.

Lemma lesson2_main_no_keys_witness :
  truthy (OPENAI_API_KEY cls_none) = false
  ∧ truthy (ANTHROPIC_API_KEY cls_none) = false
  ∧ Lesson2.main (print "1") (print "2") (print "3") (print "4") (print "5")
      cls_none [] =
    (inl (ValueError msg_no_provider_key),
     ["🔬 LangChain Lab - Lesson 2: Prompt Templates";
      "==================================================";
      "🔧 Configuration Status";
      "========================================"]).
Proof.
  do 2 (split; [reflexivity |]).
  apply (lesson2_main_no_keys (print "1") (print "2") (print "3") (print "4")
           (print "5") cls_none []); reflexivity.
Defined.
